(** * Coverage audit scripts of epubverify: a shallow embedding

  The three audit scripts under [scripts/] ([java-audit.py],
  [schematron-audit.py], [relaxng-audit.py]) are embedded as Rocq
  functions, one module per script.  Python dictionaries that are only
  looked up by key are [gmap]s; dictionaries whose iteration order is
  observable (the hand-maintained registries) are association lists in
  insertion order.  Regular-expression matching is taken as given: a
  scanned file is represented by the sequence of group tuples the
  script's pattern yields on it, in the order [finditer] (or the line
  loop) produces them.  Strings are byte strings; the scripts only
  classify ASCII letters and digits. *)

From Stdlib Require Import String Ascii List DecimalString.
From stdpp Require Import gmap strings list.

(** ** Python string and list primitives used by the scripts *)

Module Py.

(** Truth value of a [str]: non-empty. *)
Definition truthy (s : string) : bool := negb (String.eqb s "").

(** [s.replace(c, r)] for a one-character [c]. *)
Fixpoint replace_char (c : ascii) (r : string) (s : string) : string :=
  match s with
  | EmptyString => EmptyString
  | String a t =>
      if Ascii.eqb a c then r +:+ replace_char c r t
      else String a (replace_char c r t)
  end.

(** [s.split(c)[0]] for a one-character separator [c]. *)
Fixpoint split_head (c : ascii) (s : string) : string :=
  match s with
  | EmptyString => EmptyString
  | String a t => if Ascii.eqb a c then EmptyString else String a (split_head c t)
  end.

(** [s.startswith(p)]. *)
Definition startswith (s p : string) : bool := String.prefix p s.

(** [sub in s]. *)
Fixpoint contains (sub s : string) : bool :=
  String.prefix sub s ||
  match s with
  | EmptyString => false
  | String _ t => contains sub t
  end.

(** [s[:n]]. *)
Definition take (n : nat) (s : string) : string := substring 0 n s.

Definition is_upper (a : ascii) : bool :=
  let n := nat_of_ascii a in (65 <=? n) && (n <=? 90).
Definition is_lower (a : ascii) : bool :=
  let n := nat_of_ascii a in (97 <=? n) && (n <=? 122).
Definition is_digit (a : ascii) : bool :=
  let n := nat_of_ascii a in (48 <=? n) && (n <=? 57).
(** The characters [str.strip()] removes (ASCII part). *)
Definition is_space (a : ascii) : bool :=
  let n := nat_of_ascii a in ((9 <=? n) && (n <=? 13)) || (n =? 32) || ((28 <=? n) && (n <=? 31)).

Fixpoint span (p : ascii -> bool) (s : string) : string * string :=
  match s with
  | EmptyString => (EmptyString, EmptyString)
  | String a t =>
      if p a then let '(u, r) := span p t in (String a u, r)
      else (EmptyString, s)
  end.

Fixpoint lstrip (s : string) : string :=
  match s with
  | EmptyString => EmptyString
  | String a t => if is_space a then lstrip t else s
  end.

Fixpoint rstrip (s : string) : string :=
  match s with
  | EmptyString => EmptyString
  | String a t =>
      match rstrip t with
      | EmptyString => if is_space a then EmptyString else String a EmptyString
      | t' => String a t'
      end
  end.

(** [s.strip()]. *)
Definition strip (s : string) : string := rstrip (lstrip s).

Fixpoint spaces (n : nat) : string :=
  match n with O => EmptyString | S k => String " "%char (spaces k) end.

(** Format specs [{s:<w}] and [{s:>w}]: pad, never truncate. *)
Definition ljust (w : nat) (s : string) : string := s +:+ spaces (w - String.length s).
Definition rjust (w : nat) (s : string) : string := spaces (w - String.length s) +:+ s.

(** [str(n)] for a non-negative [int]. *)
Definition str_of_nat (n : nat) : string := NilZero.string_of_uint (Nat.to_uint n).

(** [c * n] for a one-character string. *)
Fixpoint repeat_char (c : ascii) (n : nat) : string :=
  match n with O => EmptyString | S k => String c (repeat_char c k) end.

(** [sorted(l, key=key)]: stable, keys compared as strings. *)
Section Sorted.
Context {A : Type} (key : A -> string).
Fixpoint insert_sorted (x : A) (l : list A) : list A :=
  match l with
  | [] => [x]
  | y :: ys =>
      if String.leb (key x) (key y) then x :: y :: ys
      else y :: insert_sorted x ys
  end.
Definition sorted (l : list A) : list A := foldr insert_sorted [] l.
End Sorted.

(** Exceptions the embedded code can raise, and computations that may
    raise them. *)
Inductive exn := KeyError (k : string).

Inductive result (A : Type) :=
| Ok (a : A)
| Raise (e : exn).
Arguments Ok {A} a.
Arguments Raise {A} e.

Definition bind {A B} (r : result A) (f : A -> result B) : result B :=
  match r with Ok a => f a | Raise e => Raise e end.

(** [d[k]] on a dictionary with string keys. *)
Definition getitem {V} (d : gmap string V) (k : string) : result V :=
  match d !! k with Some v => Ok v | None => Raise (KeyError k) end.

(** Dictionaries whose iteration order matters: items in insertion order. *)
Definition odict (V : Type) := list (string * V).

Fixpoint od_get {V} (k : string) (d : odict V) : option V :=
  match d with
  | [] => None
  | (k', v) :: d' => if String.eqb k k' then Some v else od_get k d'
  end.

(** [k in d]. *)
Definition od_mem {V} (k : string) (d : odict V) : bool :=
  match od_get k d with Some _ => true | None => false end.

(** [d[k] = v] for a key that is not in [d] yet: the item goes last. *)
Definition od_add {V} (k : string) (v : V) (d : odict V) : odict V := d ++ [(k, v)].

(** In-place change of the object stored under [k]. *)
Fixpoint od_alter {V} (f : V -> V) (k : string) (d : odict V) : odict V :=
  match d with
  | [] => []
  | (k', v) :: d' =>
      if String.eqb k k' then (k', f v) :: d' else (k', v) :: od_alter f k d'
  end.

(** A dictionary literal [{...}] holding string values. *)
Abbreviation sdict := (gmap string string).

(** [d.get(k, "")]. *)
Definition get_default (d : sdict) (k : string) : string := default EmptyString (d !! k).

End Py.

#[export] Instance result_ret : MRet Py.result := fun _ a => Py.Ok a.
#[export] Instance result_bind : MBind Py.result := fun _ _ f r => Py.bind r f.

(** ** scripts/java-audit.py *)

Module JavaAudit.
Import Py.

(** [class MessageInfo]; a record built with only [code] and [category]
    takes the dataclass defaults for the other fields. *)
Record MessageInfo := mkMessageInfo {
  code : string;
  severity : string;
  message_text : string;
  java_files : list string;
  category : string;
  in_go_code : bool;
  in_bdd_tests : bool;
  override_status : string;
  override_note : string;
}.

Definition new_message (c cat : string) : MessageInfo :=
  mkMessageInfo c "" "" [] cat false false "" "".

Definition set_severity (v : string) (m : MessageInfo) : MessageInfo :=
  mkMessageInfo (code m) v (message_text m) (java_files m) (category m)
    (in_go_code m) (in_bdd_tests m) (override_status m) (override_note m).
Definition set_message_text (v : string) (m : MessageInfo) : MessageInfo :=
  mkMessageInfo (code m) (severity m) v (java_files m) (category m)
    (in_go_code m) (in_bdd_tests m) (override_status m) (override_note m).
Definition set_java_files (v : list string) (m : MessageInfo) : MessageInfo :=
  mkMessageInfo (code m) (severity m) (message_text m) v (category m)
    (in_go_code m) (in_bdd_tests m) (override_status m) (override_note m).
Definition set_in_go_code (v : bool) (m : MessageInfo) : MessageInfo :=
  mkMessageInfo (code m) (severity m) (message_text m) (java_files m) (category m)
    v (in_bdd_tests m) (override_status m) (override_note m).
Definition set_in_bdd_tests (v : bool) (m : MessageInfo) : MessageInfo :=
  mkMessageInfo (code m) (severity m) (message_text m) (java_files m) (category m)
    (in_go_code m) v (override_status m) (override_note m).
Definition set_override (st note : string) (m : MessageInfo) : MessageInfo :=
  mkMessageInfo (code m) (severity m) (message_text m) (java_files m) (category m)
    (in_go_code m) (in_bdd_tests m) st note.

(** [MessageInfo.status]. *)
Definition status (m : MessageInfo) : string :=
  if truthy (override_status m) then override_status m
  else if String.eqb (severity m) "SUPPRESSED" then "suppressed"
  else if in_go_code m then "implemented"
  else "missing".

(** [class AuditResult]. *)
Record AuditResult := mkAuditResult {
  epubcheck_commit : string;
  total_codes : nat;
  implemented : nat;
  tested : nat;
  suppressed : nat;
  wontfix : nat;
  missing : nat;
  partial : nat;
  messages : list MessageInfo;
}.

(** *** Parsers *)

(** The identifier written in [MessageId.java] is normalised to the
    hyphenated key; [category] is what precedes the first hyphen. *)
Definition normalize_code (g1 : string) : string := replace_char "_" "-" g1.
Definition category_of (c : string) : string := split_head "-" c.

(** [parse_message_ids], on group 1 of every matching line of
    [MessageId.java]. *)
Definition parse_message_ids (matches : list string) : gmap string MessageInfo :=
  foldl (fun msgs g1 =>
           let c := normalize_code g1 in
           <[c := new_message c (category_of c)]> msgs)
        ∅ matches.

(** The [re.sub] of [parse_severities], which rewrites a name made of
    capitals, an underscore, digits and any rest into capitals, a hyphen,
    the digits and the rest: when the name starts with capitals, an
    underscore and a digit, that underscore becomes a hyphen; otherwise
    the name is returned as it is. *)
Definition code_of_enum_name (enum_name : string) : string :=
  let '(up, rest) := span is_upper enum_name in
  match up, rest with
  | String _ _, String "_" (String d tl) =>
      if is_digit d then up +:+ String "-" (String d tl) else enum_name
  | _, _ => enum_name
  end.

(** [parse_severities], on the (enum name, severity) groups of the
    matching lines of [DefaultSeverities.java]; [None] when the file is
    absent. *)
Definition parse_severities (matches : option (list (string * string)))
    (msgs : gmap string MessageInfo) : gmap string MessageInfo :=
  match matches with
  | None => msgs
  | Some l =>
      foldl (fun msgs '(enum_name, sev) =>
               let c := code_of_enum_name enum_name in
               match msgs !! c with
               | Some m => <[c := set_severity sev m]> msgs
               | None => msgs
               end)
            msgs l
  end.

(** A line of [MessageBundle.properties] with the groups of
    [pattern.match(line)], if it matches. *)
Record BundleLine := mkBundleLine {
  bl_line : string;
  bl_match : option (string * string);
}.

(** [parse_message_texts]. *)
Definition parse_message_texts (lines : option (list BundleLine))
    (msgs : gmap string MessageInfo) : gmap string MessageInfo :=
  match lines with
  | None => msgs
  | Some l =>
      foldl (fun msgs bl =>
               if contains "_SUG" (bl_line bl) then msgs
               else match bl_match bl with
                    | Some (g1, g2) =>
                        let c := replace_char "_" "-" g1 in
                        let text := strip g2 in
                        match msgs !! c with
                        | Some m => <[c := set_message_text text m]> msgs
                        | None => msgs
                        end
                    | None => msgs
                    end)
            msgs l
  end.

(** A file yielded by [java_dir.rglob("*.java")]: its name, its stem, and
    group 1 of every [MessageId.X] occurrence in its text ([None] when
    reading it raises). *)
Record JavaFile := mkJavaFile {
  jf_name : string;
  jf_stem : string;
  jf_refs : option (list string);
}.

(** The [enum_to_code] dictionary built at the start of
    [find_java_emitters]. *)
Definition enum_to_code (msgs : gmap string MessageInfo) : gmap string string :=
  foldl (fun d c => <[replace_char "-" "_" c := c]> d) ∅ (map_to_list msgs).*1.

Definition record_emitter (index : gmap string string) (short_name : string)
    (msgs : gmap string MessageInfo) (enum_name : string) : gmap string MessageInfo :=
  match index !! enum_name with
  | Some c =>
      match msgs !! c with
      | Some m =>
          if bool_decide (short_name ∈ java_files m) then msgs
          else <[c := set_java_files (java_files m ++ [short_name]) m]> msgs
      | None => msgs
      end
  | None => msgs
  end.

(** The body of the loop over the files. *)
Definition scan_java_file (index : gmap string string)
    (msgs : gmap string MessageInfo) (jf : JavaFile) : gmap string MessageInfo :=
  if bool_decide (jf_name jf ∈ ["MessageId.java"; "DefaultSeverities.java"]) then msgs
  else match jf_refs jf with
       | None => msgs
       | Some refs => foldl (record_emitter index (jf_stem jf)) msgs refs
       end.

(** [find_java_emitters]; [files] is the sequence [rglob] yields, in the
    order it yields it, [None] when the source directory is absent. *)
Definition find_java_emitters (files : option (list JavaFile))
    (msgs : gmap string MessageInfo) : gmap string MessageInfo :=
  match files with
  | None => msgs
  | Some l => foldl (scan_java_file (enum_to_code msgs)) msgs l
  end.

(** The set of codes collected from the scanned files; an entry is the
    list of group 1 of the matches in one file ([None] when reading
    raises). *)
Definition collect_codes (files : list (option (list string))) : gset string :=
  foldl (fun s f => match f with
                    | None => s
                    | Some ms => foldl (fun s c => {[c]} ∪ s) s ms
                    end)
        ∅ files.

(** [find_go_implementations]. *)
Definition find_go_implementations (go_files : list (option (list string)))
    (msgs : gmap string MessageInfo) : gmap string MessageInfo :=
  let go_codes := collect_codes go_files in
  map_imap (fun c m => Some (if bool_decide (c ∈ go_codes)
                             then set_in_go_code true m else m)) msgs.

(** [find_bdd_coverage]; [None] when the features directory is absent. *)
Definition find_bdd_coverage (feature_files : option (list (option (list string))))
    (msgs : gmap string MessageInfo) : gmap string MessageInfo :=
  match feature_files with
  | None => msgs
  | Some files =>
      let bdd_codes := collect_codes files in
      map_imap (fun c m => Some (if bool_decide (c ∈ bdd_codes)
                                 then set_in_bdd_tests true m else m)) msgs
  end.

(** [apply_overrides], with the override table passed explicitly. *)
Definition apply_overrides (KNOWN_OVERRIDES : odict sdict)
    (msgs : gmap string MessageInfo) : gmap string MessageInfo :=
  foldl (fun msgs '(c, override) =>
           match msgs !! c with
           | Some m =>
               <[c := set_override (get_default override "status")
                                   (get_default override "note") m]> msgs
           | None => msgs
           end)
        msgs KNOWN_OVERRIDES.

(** *** Report generation *)

Definition bump_implemented (r : AuditResult) : AuditResult :=
  mkAuditResult (epubcheck_commit r) (total_codes r) (S (implemented r)) (tested r)
    (suppressed r) (wontfix r) (missing r) (partial r) (messages r).
Definition bump_tested (r : AuditResult) : AuditResult :=
  mkAuditResult (epubcheck_commit r) (total_codes r) (implemented r) (S (tested r))
    (suppressed r) (wontfix r) (missing r) (partial r) (messages r).
Definition bump_suppressed (r : AuditResult) : AuditResult :=
  mkAuditResult (epubcheck_commit r) (total_codes r) (implemented r) (tested r)
    (S (suppressed r)) (wontfix r) (missing r) (partial r) (messages r).
Definition bump_wontfix (r : AuditResult) : AuditResult :=
  mkAuditResult (epubcheck_commit r) (total_codes r) (implemented r) (tested r)
    (suppressed r) (S (wontfix r)) (missing r) (partial r) (messages r).
Definition bump_missing (r : AuditResult) : AuditResult :=
  mkAuditResult (epubcheck_commit r) (total_codes r) (implemented r) (tested r)
    (suppressed r) (wontfix r) (S (missing r)) (partial r) (messages r).
Definition bump_partial (r : AuditResult) : AuditResult :=
  mkAuditResult (epubcheck_commit r) (total_codes r) (implemented r) (tested r)
    (suppressed r) (wontfix r) (missing r) (S (partial r)) (messages r).

(** The body of the loop of [generate_report]. *)
Definition count_message (r : AuditResult) (msg : MessageInfo) : AuditResult :=
  let st := status msg in
  let r :=
    if String.eqb st "implemented" then bump_implemented r
    else if String.eqb st "suppressed" then bump_suppressed r
    else if String.eqb st "wontfix" then bump_wontfix r
    else if String.eqb st "partial" then bump_partial r
    else if String.eqb st "missing" then bump_missing r
    else r in
  if in_bdd_tests msg then bump_tested r else r.

(** [generate_report]. *)
Definition generate_report (msgs : gmap string MessageInfo) (commit : string) : AuditResult :=
  let ms := sorted code (map_to_list msgs).*2 in
  foldl count_message (mkAuditResult commit (size msgs) 0 0 0 0 0 0 ms) ms.

(** The value handed to [json.dump]: objects keep their keys in
    insertion order. *)
#[local] Unset Elimination Schemes.
Inductive json :=
| JStr (s : string)
| JNum (n : nat)
| JBool (b : bool)
| JList (l : list json)
| JObj (fields : list (string * json)).
#[local] Set Elimination Schemes.

Definition message_json (msg : MessageInfo) : json :=
  JObj [("code", JStr (code msg));
        ("severity", JStr (severity msg));
        ("message", JStr (message_text msg));
        ("category", JStr (category msg));
        ("java_files", JList (JStr <$> java_files msg));
        ("status", JStr (status msg));
        ("in_go_code", JBool (in_go_code msg));
        ("in_bdd_tests", JBool (in_bdd_tests msg));
        ("note", JStr (override_note msg))].

(** [print_json_report]: the [output] object it serialises. *)
Definition print_json_report (r : AuditResult) : json :=
  JObj [("epubcheck_commit", JStr (epubcheck_commit r));
        ("summary",
         JObj [("total", JNum (total_codes r));
               ("implemented", JNum (implemented r));
               ("tested_bdd", JNum (tested r));
               ("suppressed", JNum (suppressed r));
               ("wontfix", JNum (wontfix r));
               ("partial", JNum (partial r));
               ("missing", JNum (missing r))]);
        ("messages", JList (message_json <$> messages r))].

(** The per-category counters of [print_text_report]. *)
Definition new_category_row : gmap string nat :=
  list_to_map [("implemented", 0); ("missing", 0); ("suppressed", 0);
               ("wontfix", 0); ("partial", 0); ("total", 0)].

Definition tally (cats : gmap string (gmap string nat)) (msg : MessageInfo)
    : result (gmap string (gmap string nat)) :=
  let cat := category msg in
  let cats := match cats !! cat with
              | None => <[cat := new_category_row]> cats
              | Some _ => cats
              end in
  row ← getitem cats cat;
  total ← getitem row "total";
  let row := <["total" := S total]> row in
  n ← getitem row (status msg);
  mret (<[cat := <[status msg := S n]> row]> cats).

Definition category_line (cat : string) (c : gmap string nat) : string :=
  "  " +:+ ljust 8 cat +:+ " " +:+ rjust 5 (str_of_nat (c !!! "total"))
  +:+ " " +:+ rjust 5 (str_of_nat (c !!! "implemented"))
  +:+ " " +:+ rjust 5 (str_of_nat (c !!! "missing"))
  +:+ " " +:+ rjust 5 (str_of_nat (c !!! "suppressed"))
  +:+ " " +:+ rjust 5 (str_of_nat (c !!! "wontfix"))
  +:+ " " +:+ rjust 5 (str_of_nat (c !!! "partial")).

Definition rule72 : string := repeat_char "-" 72.

Definition severity_order : list string :=
  ["FATAL"; "ERROR"; "WARNING"; "USAGE"; "INFO"; "UNKNOWN"].

Definition severity_or_unknown (msg : MessageInfo) : string :=
  if truthy (severity msg) then severity msg else "UNKNOWN".

Definition missing_entry (msg : MessageInfo) : list string :=
  let java_info := match java_files msg with
                   | [] => "?"
                   | fs => String.concat ", " (firstn 3 fs)
                   end in
  let text := if truthy (message_text msg) then take 80 (message_text msg) else "" in
  ("    " +:+ ljust 12 (code msg) +:+ " Java: " +:+ java_info)
  :: (if truthy text then ["    " +:+ spaces 12 +:+ " Msg:  " +:+ text] else []).

(** The messages grouped under one severity are those of [missing] with
    that severity, in order; an absent group prints nothing. *)
Definition missing_group (missing_msgs : list MessageInfo) (sev : string) : list string :=
  match filter (fun m => severity_or_unknown m = sev) missing_msgs with
  | [] => []
  | msgs =>
      ("  [" +:+ sev +:+ "] (" +:+ str_of_nat (length msgs) +:+ " codes)")
      :: concat (missing_entry <$> sorted code msgs) ++ [""]
  end.

Definition missing_section (r : AuditResult) : list string :=
  match filter (fun m => status m = "missing") (messages r) with
  | [] => []
  | ms =>
      [rule72; "MISSING CHECKS (" +:+ str_of_nat (length ms) +:+ " gaps to evaluate)";
       rule72; ""]
      ++ concat (missing_group ms <$> severity_order)
  end.

Definition partial_section (r : AuditResult) : list string :=
  match filter (fun m => status m = "partial") (messages r) with
  | [] => []
  | ps =>
      [rule72; "PARTIAL CHECKS (" +:+ str_of_nat (length ps) +:+ " need completion)"; rule72]
      ++ ((fun m => "  " +:+ ljust 12 (code m) +:+ " " +:+ override_note m) <$> ps)
      ++ [""]
  end.

Definition untested_section (r : AuditResult) : list string :=
  match filter (fun m => status m = "implemented" ∧ in_bdd_tests m = false
                         ∧ severity m ∉ ["SUPPRESSED"; ""]) (messages r) with
  | [] => []
  | us =>
      [rule72; "IMPLEMENTED BUT NOT IN BDD TESTS (" +:+ str_of_nat (length us) +:+ ")"; rule72]
      ++ ((fun m => "  " +:+ ljust 12 (code m) +:+ " [" +:+ severity m +:+ "]  "
                    +:+ (if truthy (message_text m) then take 60 (message_text m) else ""))
            <$> sorted code us)
      ++ [""]
  end.

(** The seven aggregate lines at the head of the text report. *)
Definition count_lines (r : AuditResult) : list string :=
  ["Total message IDs defined:  " +:+ str_of_nat (total_codes r);
   "  Implemented:              " +:+ str_of_nat (implemented r);
   "  Tested (BDD):             " +:+ str_of_nat (tested r);
   "  Suppressed by epubcheck:  " +:+ str_of_nat (suppressed r);
   "  Wontfix (too niche):      " +:+ str_of_nat (wontfix r);
   "  Partial:                  " +:+ str_of_nat (partial r);
   "  MISSING:                  " +:+ str_of_nat (missing r)].

(** The banner and the aggregate lines. *)
Definition text_head (r : AuditResult) : list string :=
  [""; repeat_char "=" 72; "Tier 3: Java Code Check Coverage Report";
   repeat_char "=" 72; "epubcheck commit: " +:+ epubcheck_commit r; ""]
  ++ count_lines r ++ [""].

(** The per-category table. *)
Definition category_table (categories : gmap string (gmap string nat)) : list string :=
  ["Coverage by category:";
   "  " +:+ ljust 8 "Category" +:+ " " +:+ rjust 5 "Total" +:+ " " +:+ rjust 5 "Impl"
   +:+ " " +:+ rjust 5 "Miss" +:+ " " +:+ rjust 5 "Supp" +:+ " " +:+ rjust 5 "Skip"
   +:+ " " +:+ rjust 5 "Part";
   "  " +:+ ljust 8 "--------" +:+ " " +:+ rjust 5 "-----" +:+ " " +:+ rjust 5 "-----"
   +:+ " " +:+ rjust 5 "-----" +:+ " " +:+ rjust 5 "-----" +:+ " " +:+ rjust 5 "-----"
   +:+ " " +:+ rjust 5 "-----"]
  ++ ((fun '(cat, c) => category_line cat c) <$> sorted fst (map_to_list categories))
  ++ [""].

(** [print_text_report]: the lines printed, and the exception that ends
    the printing early, if one is raised. *)
Definition print_text_report (r : AuditResult) (summary_only : bool)
    : list string * option exn :=
  match foldl (fun acc msg => cats ← acc; tally cats msg) (Ok ∅) (messages r) with
  | Raise e => (text_head r, Some e)
  | Ok categories =>
      if summary_only then (text_head r ++ category_table categories, None)
      else (text_head r ++ category_table categories
            ++ missing_section r ++ partial_section r ++ untested_section r, None)
  end.

(** *** [main] *)

Record Args := mkArgs {
  arg_json : bool;
  arg_skip_update : bool;
  arg_summary : bool;
}.

(** What one run reads: the reference snapshot, the validator source and
    the feature files, each as the matches its scan yields. *)
Record Inputs := mkInputs {
  in_commit : string;
  in_message_ids : option (list string);
  in_severities : option (list (string * string));
  in_bundle : option (list BundleLine);
  in_java : option (list JavaFile);
  in_go : list (option (list string));
  in_features : option (list (option (list string)));
}.

Inductive stdout :=
| NoOutput
| JsonOutput (j : json)
| TextOutput (lines : list string).

(** Of what goes to standard error only the closing message of [main]
    is kept. *)
Record Outcome := mkOutcome {
  out : stdout;
  closing_message : option string;
  exit_status : nat;
}.

(** Steps 2 to 7 of [main], once [MessageId.java] has been read: the
    rule records with their evidence. *)
Definition scan (inp : Inputs) (ids : list string) : gmap string MessageInfo :=
  find_bdd_coverage (in_features inp)
    (find_go_implementations (in_go inp)
       (find_java_emitters (in_java inp)
          (parse_message_texts (in_bundle inp)
             (parse_severities (in_severities inp)
                (parse_message_ids ids))))).

(** Steps 2 to 8 of [main]. *)
Definition collect (KNOWN_OVERRIDES : odict sdict) (inp : Inputs) (ids : list string)
    : gmap string MessageInfo :=
  apply_overrides KNOWN_OVERRIDES (scan inp ids).

(** The last statement of [main]: with missing checks a message is
    printed to standard error, and [main] returns. *)
Definition closing (result : AuditResult) : option string :=
  if 0 <? missing result
  then Some (String "010" (str_of_nat (missing result) +:+ " missing checks found."))
  else None.

(** [main]: a missing [MessageId.java] ends the run with status 1
    ([sys.exit(1)] in [parse_message_ids]), an uncaught exception ends it
    with status 1, and a run that reaches the end of [main] ends with
    status 0. *)
Definition main (KNOWN_OVERRIDES : odict sdict) (args : Args) (inp : Inputs) : Outcome :=
  match in_message_ids inp with
  | None => mkOutcome NoOutput None 1
  | Some ids =>
      let result := generate_report (collect KNOWN_OVERRIDES inp ids) (in_commit inp) in
      if arg_json args
      then mkOutcome (JsonOutput (print_json_report result)) (closing result) 0
      else match print_text_report result (arg_summary args) with
           | (lines, Some _) => mkOutcome (TextOutput lines) None 1
           | (lines, None) => mkOutcome (TextOutput lines) (closing result) 0
           end
  end.

End JavaAudit.

(** ** scripts/schematron-audit.py *)

Module SchematronAudit.
Import Py.

(** [class SchematronCheck]. *)
Record SchematronCheck := mkSchematronCheck {
  file : string;
  pattern_id : string;
  context : string;
  check_type : string;
  test_xpath : string;
  message : string;
  is_abstract_instance : bool;
  abstract_pattern : string;
  params : list (string * string);
}.

(** [class AuditResult]. *)
Record AuditResult := mkAuditResult {
  total_patterns : nat;
  total_checks : nat;
  implemented : nat;
  partial : nat;
  missing : nat;
  missing_checks : list SchematronCheck;
  partial_checks : list SchematronCheck;
}.

(** The body of the loop of [audit]; [seen] is [seen_patterns]. *)
Definition audit_check (KNOWN_CHECKS : odict sdict)
    (st : gset string * AuditResult) (c : SchematronCheck)
    : result (gset string * AuditResult) :=
  let '(seen, r) := st in
  let pid := pattern_id c in
  let '(seen, patterns) :=
    if bool_decide (pid ∈ seen) then (seen, total_patterns r)
    else ({[pid]} ∪ seen, S (total_patterns r)) in
  let checks := S (total_checks r) in
  match od_get pid KNOWN_CHECKS with
  | None =>
      mret (seen, mkAuditResult patterns checks (implemented r) (partial r)
                    (S (missing r)) (missing_checks r ++ [c]) (partial_checks r))
  | Some known =>
      st ← getitem known "status";
      if String.eqb st "partial"
      then mret (seen, mkAuditResult patterns checks (implemented r) (S (partial r))
                         (missing r) (missing_checks r) (partial_checks r ++ [c]))
      else mret (seen, mkAuditResult patterns checks (S (implemented r)) (partial r)
                         (missing r) (missing_checks r) (partial_checks r))
  end.

Fixpoint audit_loop (KNOWN_CHECKS : odict sdict) (st : gset string * AuditResult)
    (checks : list SchematronCheck) : result (gset string * AuditResult) :=
  match checks with
  | [] => mret st
  | c :: cs => st' ← audit_check KNOWN_CHECKS st c; audit_loop KNOWN_CHECKS st' cs
  end.

(** [audit], with the registry passed explicitly. *)
Definition audit (KNOWN_CHECKS : odict sdict) (checks : list SchematronCheck)
    : result AuditResult :=
  st ← audit_loop KNOWN_CHECKS (∅, mkAuditResult 0 0 0 0 0 [] []) checks;
  mret st.2.

(** The exit status of [main] once the checks are parsed: an uncaught
    exception gives 1, [sys.exit(2)] is reached when checks are missing,
    and falling off the end of [main] gives 0. *)
Definition exit_status (KNOWN_CHECKS : odict sdict) (checks : list SchematronCheck) : nat :=
  match audit KNOWN_CHECKS checks with
  | Raise _ => 1
  | Ok r => if 0 <? missing r then 2 else 0
  end.

End SchematronAudit.

(** ** scripts/relaxng-audit.py *)

Module RelaxngAudit.
Import Py.

(** [class ElementDef]. *)
Record ElementDef := mkElementDef {
  name : string;
  source_file : string;
  content_model : string;
  content_category : string;
  attrs : list string;
  content_detail : string;
  is_void : bool;
}.

(** [class ContentRule]. *)
Record ContentRule := mkContentRule {
  parent : string;
  allowed_content : string;
  cr_source_file : string;
  detail : string;
  cr_priority : string;
}.

(** [class GapItem]. *)
Record GapItem := mkGapItem {
  gap_category : string;
  description : string;
  priority : string;
  schema_source : string;
  affected_elements : list string;
  epubverify_status : string;
  go_file : string;
  note : string;
}.

(** *** [parse_rnc_files] *)

(** What the five patterns of [parse_rnc_files] yield on the text of one
    grammar file with its comments stripped: the groups of [elem_pat]
    (pattern name, element name, body) and of [inner_pat] (pattern name,
    content), and group 1 of the three category patterns. *)
Record RncMatches := mkRncMatches {
  elem_matches : list (string * string * string);
  inner_matches : list (string * string);
  flow_adds : list string;
  phrasing_adds : list string;
  metadata_adds : list string;
}.

(** An entry of [file_list]; [rnc_text] is [None] when the file does not
    exist. *)
Record RncFile := mkRncFile {
  fname : string;
  rnc_text : option RncMatches;
}.

(** The variables the loop over [file_list] updates. *)
Record Scan := mkScan {
  st_elements : odict ElementDef;
  st_raw_patterns : gmap string string;
  st_flow_elems : gset string;
  st_phrasing_elems : gset string;
  st_metadata_elems : gset string;
}.

(** The record built for one match of [elem_pat]. *)
Definition element_of_match (fname elem_name g3 : string) : ElementDef :=
  let body := strip g3 in
  let content_model :=
    if contains "empty" body
       && String.eqb (strip (replace_char ")" "" (replace_char "(" "" (strip body)))) "empty"
    then "empty" else "special" in
  mkElementDef elem_name fname content_model "unknown" [] "" false.

(** One match of [elem_pat]: the raw pattern is always recorded, the
    element only when its tag has no record yet. *)
Definition scan_element (fname : string) (st : Scan) (m : string * string * string) : Scan :=
  let '(pattern_name, elem_name, g3) := m in
  let raw := <[pattern_name := strip g3]> (st_raw_patterns st) in
  let ed := element_of_match fname elem_name g3 in
  let els := if od_mem elem_name (st_elements st) then st_elements st
             else od_add elem_name ed (st_elements st) in
  mkScan els raw (st_flow_elems st) (st_phrasing_elems st) (st_metadata_elems st).

Definition scan_inner (st : Scan) (m : string * string) : Scan :=
  let '(pattern_name, g2) := m in
  mkScan (st_elements st) (<[pattern_name := strip g2]> (st_raw_patterns st))
    (st_flow_elems st) (st_phrasing_elems st) (st_metadata_elems st).

Definition add_all (l : list string) (s : gset string) : gset string :=
  foldl (fun s x => {[x]} ∪ s) s l.

(** The body of the loop over [file_list]. *)
Definition scan_file (st : Scan) (f : RncFile) : Scan :=
  match rnc_text f with
  | None => st
  | Some ms =>
      let st := foldl (scan_element (fname f)) st (elem_matches ms) in
      let st := foldl scan_inner st (inner_matches ms) in
      mkScan (st_elements st) (st_raw_patterns st)
        (add_all (flow_adds ms) (st_flow_elems st))
        (add_all (phrasing_adds ms) (st_phrasing_elems st))
        (add_all (metadata_adds ms) (st_metadata_elems st))
  end.

(** The loop over [file_list]. *)
Definition scan_files (file_list : list RncFile) : Scan :=
  foldl scan_file (mkScan [] ∅ ∅ ∅ ∅) file_list.

Definition set_content_category (v : string) (e : ElementDef) : ElementDef :=
  mkElementDef (name e) (source_file e) (content_model e) v (attrs e)
    (content_detail e) (is_void e).

(** The first mapping from pattern names to element names. *)
Definition prefix_mapping (els : odict ElementDef) (raw : gmap string string)
    : gmap string string :=
  foldl (fun p2e ename =>
           foldl (fun p2e pname =>
                    if startswith pname (replace_char "-" "" (replace_char ":" "_" ename))
                       || String.eqb (split_head "." pname) ename
                    then <[pname := ename]> p2e else p2e)
                 p2e (map_to_list raw).*1)
        ∅ els.*1.

(** The second mapping, over the patterns added to a category. *)
Definition base_mapping (els : odict ElementDef) (pnames : list string)
    (p2e : gmap string string) : gmap string string :=
  foldl (fun p2e pname =>
           let base := split_head "." pname in
           match List.find (fun ename => String.eqb ename base
                                         || String.eqb ename (replace_char "_" ":" base))
                           els.*1 with
           | Some ename => <[pname := ename]> p2e
           | None => p2e
           end)
        p2e pnames.

(** One of the three loops that set [content_category]. *)
Definition categorize (p2e : gmap string string) (cat : ElementDef -> string)
    (pnames : list string) (els : odict ElementDef) : odict ElementDef :=
  foldl (fun els pname =>
           match p2e !! pname with
           | Some ename =>
               if truthy ename && od_mem ename els
               then od_alter (fun e => set_content_category (cat e) e) ename els
               else els
           | None => els
           end)
        els pnames.

(** Content model of an element from its [.inner] pattern. *)
Definition resolve_content_model (raw : gmap string string) (ename : string)
    (e : ElementDef) : ElementDef :=
  match List.find (fun suffix => bool_decide (is_Some (raw !! (ename +:+ suffix))))
                  [".inner"; ".inner.flow"; ".inner.phrasing"] with
  | None => e
  | Some suffix =>
      let inner := default "" (raw !! (ename +:+ suffix)) in
      let '(cm, void) :=
        if contains "common.inner.phrasing" inner && negb (contains "common.inner.flow" inner)
        then ("phrasing", is_void e)
        else if contains "common.inner.flow" inner then ("flow", is_void e)
        else if contains "common.inner.transparent.flow" inner then ("transparent", is_void e)
        else if contains "empty" inner then ("empty", true)
        else (content_model e, is_void e) in
      mkElementDef (name e) (source_file e) cm (content_category e) (attrs e)
        (strip inner) void
  end.

Definition content_rule_of (ename : string) (e : ElementDef) : option (string * ContentRule) :=
  if bool_decide (content_model e ∈ ["phrasing"; "flow"; "empty"; "transparent"])
  then Some (ename, mkContentRule ename (content_model e) (source_file e)
                      (content_detail e) "medium")
  else None.

(** [parse_rnc_files]. *)
Definition parse_rnc_files (file_list : list RncFile)
    : odict ElementDef * odict ContentRule * gmap string string :=
  let st := scan_files file_list in
  let raw := st_raw_patterns st in
  let flow := elements (st_flow_elems st) in
  let phrasing := elements (st_phrasing_elems st) in
  let metadata := elements (st_metadata_elems st) in
  let p2e := base_mapping (st_elements st) (flow ++ phrasing ++ metadata)
               (prefix_mapping (st_elements st) raw) in
  let els := categorize p2e (fun _ => "flow") flow (st_elements st) in
  let els := categorize p2e
               (fun e => if String.eqb (content_category e) "flow"
                         then "phrasing+flow" else "phrasing")
               phrasing els in
  let els := categorize p2e (fun _ => "metadata") metadata els in
  let els := (fun '(ename, e) => (ename, resolve_content_model raw ename e)) <$> els in
  let content_rules := omap (fun '(ename, e) => content_rule_of ename e) els in
  (els, content_rules, raw).

(** *** Knowledge base *)

Definition PHRASING_CONTENT_PARENTS : gset string :=
  list_to_set
    ["p"; "h1"; "h2"; "h3"; "h4"; "h5"; "h6";
     "pre"; "span"; "em"; "strong"; "small"; "mark"; "abbr"; "dfn";
     "i"; "b"; "s"; "u"; "code"; "var"; "samp"; "kbd"; "sup"; "sub";
     "q"; "cite"; "bdo"; "bdi"; "dt"; "label"; "legend";
     "summary"; "figcaption";
     "a";
     "time"; "data"; "output"].

Definition VOID_ELEMENTS : gset string :=
  list_to_set
    ["br"; "hr"; "img"; "input"; "link"; "meta"; "area"; "base";
     "col"; "embed"; "param"; "source"; "track"; "wbr"].

Definition RESTRICTED_CHILDREN : odict (gset string) :=
  [("ul", list_to_set ["li"]);
   ("ol", list_to_set ["li"]);
   ("dl", list_to_set ["dt"; "dd"; "div"]);
   ("table", list_to_set ["caption"; "colgroup"; "thead"; "tbody"; "tfoot"; "tr"]);
   ("thead", list_to_set ["tr"]);
   ("tbody", list_to_set ["tr"]);
   ("tfoot", list_to_set ["tr"]);
   ("tr", list_to_set ["td"; "th"]);
   ("colgroup", list_to_set ["col"]);
   ("select", list_to_set ["option"; "optgroup"]);
   ("optgroup", list_to_set ["option"]);
   ("hgroup", list_to_set ["h1"; "h2"; "h3"; "h4"; "h5"; "h6"; "p"]);
   ("ruby", list_to_set ["rb"; "rt"; "rtc"; "rp"]);
   ("picture", list_to_set ["source"; "img"]);
   ("datalist", list_to_set ["option"])].

(** *** [analyze_gaps] *)

(** Truth value of a dictionary: non-empty. *)
Definition dict_truthy (d : sdict) : bool := bool_decide (d ≠ ∅).

(** [KNOWN_CHECKS.get(k, {}).get("status") == "implemented"]. *)
Definition get_status_is_implemented (KNOWN_CHECKS : odict sdict) (k : string) : bool :=
  bool_decide (default ∅ (od_get k KNOWN_CHECKS) !! "status" = Some "implemented").

(** [not known or known["status"] != "implemented"], for the result
    [known] of [KNOWN_CHECKS.get(k)]. *)
Definition not_implemented (known : option sdict) : result bool :=
  match known with
  | None => mret true
  | Some d =>
      if dict_truthy d
      then st ← getitem d "status"; mret (negb (String.eqb st "implemented"))
      else mret true
  end.

(** A loop that appends the items each iteration yields. *)
Fixpoint for_each {A} (body : A -> result (list GapItem)) (l : list A)
    : result (list GapItem) :=
  match l with
  | [] => mret []
  | x :: xs => g ← body x; gs ← for_each body xs; mret (g ++ gs)
  end.

Definition high_traffic : list string := ["p"; "h1"; "h2"; "h3"; "h4"; "h5"; "h6"; "span"].

(** The three descriptions that are built from an element name. *)
Definition phrasing_description (elem : string) : string :=
  "<" +:+ elem +:+ "> allows only phrasing content (text and inline elements). "
  +:+ "Block elements like <div>, <p>, <table>, <ul> must not appear inside <"
  +:+ elem +:+ ">.".

Definition restricted_description (parent : string) (allowed : list string) : string :=
  "<" +:+ parent +:+ "> can only contain: "
  +:+ String.concat ", " ((fun c => "<" +:+ c +:+ ">") <$> allowed)
  +:+ ". " +:+ "Other elements are not allowed as direct children.".

Definition transparent_description (elem : string) : string :=
  "<" +:+ elem +:+ "> has a transparent content model — it inherits the "
  +:+ "content model of its parent. If parent allows only phrasing, "
  +:+ "<" +:+ elem +:+ "> must also contain only phrasing content.".

Definition void_description : string :=
  "Void elements cannot have children. Elements like <br>, <hr>, <img>, "
  +:+ "<input>, <meta>, <link> must be empty.".

Definition interactive_description : string :=
  "Interactive elements (<a>, <button>, <input>, <select>, <textarea>, "
  +:+ "<label>, <embed>, <iframe>) cannot be nested inside other interactive elements.".

(** The body of the loop over the phrasing-only parents. *)
Definition phrasing_gap (KNOWN_CHECKS : odict sdict) (general_implemented : bool)
    (elem : string) : result (list GapItem) :=
  let rule_id := elem +:+ "-phrasing-only" in
  let known := od_get rule_id KNOWN_CHECKS in
  let known_truthy := match known with Some d => dict_truthy d | None => false end in
  specific ← (match known with
              | Some d => if dict_truthy d
                          then st ← getitem d "status"; mret (String.eqb st "implemented")
                          else mret false
              | None => mret false
              end);
  if specific || general_implemented then mret []
  else
    let priority := if bool_decide (elem ∈ high_traffic) then "high" else "medium" in
    status ← (match known with
              | Some d => if known_truthy then getitem d "status" else mret "missing"
              | None => mret "missing"
              end);
    mret [mkGapItem "content-model"
            (phrasing_description elem)
            priority
            (if bool_decide (elem ∈ ["p"; "pre"]) then "mod/html5/block.rnc"
             else "mod/html5/phrase.rnc")
            [elem]
            status
            (match known with
             | Some d => if known_truthy then get_default d "go" else ""
             | None => ""
             end)
            ""].

(** 1. Phrasing-only parents. *)
Definition phrasing_gaps (KNOWN_CHECKS : odict sdict) : result (list GapItem) :=
  let general_implemented := get_status_is_implemented KNOWN_CHECKS "block-in-phrasing" in
  for_each (phrasing_gap KNOWN_CHECKS general_implemented)
           (sorted id (elements PHRASING_CONTENT_PARENTS)).

(** 2. Void elements. *)
Definition void_gaps (KNOWN_CHECKS : odict sdict) : result (list GapItem) :=
  gap ← not_implemented (od_get "void-elements-no-children" KNOWN_CHECKS);
  mret (if gap : bool
        then [mkGapItem "content-model" void_description
                "medium" "mod/html5/phrase.rnc"
                (sorted id (elements VOID_ELEMENTS)) "missing" "" ""]
        else []).

(** The search through the registry for an implemented check whose key
    mentions [parent]. *)
Fixpoint some_implemented_mentions (parent : string) (items : odict sdict) : result bool :=
  match items with
  | [] => mret false
  | (k, v) :: rest =>
      if contains parent k
      then st ← getitem v "status";
           if String.eqb st "implemented" then mret true
           else some_implemented_mentions parent rest
      else some_implemented_mentions parent rest
  end.

Definition restricted_gap (KNOWN_CHECKS : odict sdict) (restricted_children_implemented : bool)
    (item : string * gset string) : result (list GapItem) :=
  let '(parent, allowed) := item in
  is_checked ← (if restricted_children_implemented then mret true
                else some_implemented_mentions parent KNOWN_CHECKS);
  mret (if is_checked : bool then []
        else
          [mkGapItem "element-nesting"
             (restricted_description parent (sorted id (elements allowed)))
             (if bool_decide (parent ∈ ["ul"; "ol"; "table"; "tr"; "select"])
              then "high" else "medium")
             (if bool_decide (parent ∈ ["ul"; "ol"; "dl"]) then "mod/html5/block.rnc"
              else "mod/html5/tables.rnc")
             (parent :: sorted id (elements allowed))
             "missing" "" ""]).

(** 3. Restricted children. *)
Definition restricted_gaps (KNOWN_CHECKS : odict sdict) : result (list GapItem) :=
  let restricted_children_implemented :=
    get_status_is_implemented KNOWN_CHECKS "ul-ol-children"
    && get_status_is_implemented KNOWN_CHECKS "tr-children"
    && get_status_is_implemented KNOWN_CHECKS "dl-structure" in
  for_each (restricted_gap KNOWN_CHECKS restricted_children_implemented)
           (sorted fst RESTRICTED_CHILDREN).

Definition transparent_gap (KNOWN_CHECKS : odict sdict) (transparent_implemented : bool)
    (elem : string) : result (list GapItem) :=
  if transparent_implemented then mret []
  else
    let known_t := List.find (fun '(k, _) => contains elem k && contains "transparent" k)
                             KNOWN_CHECKS in
    gap ← not_implemented (snd <$> known_t);
    mret (if gap : bool
          then [mkGapItem "content-model"
                  (transparent_description elem)
                  "low"
                  (if String.eqb elem "a" then "mod/html5/phrase.rnc"
                   else "mod/html5/embed.rnc")
                  [elem] "missing" "" ""]
          else []).

(** 4. Transparent content model. *)
Definition transparent_gaps (KNOWN_CHECKS : odict sdict) : result (list GapItem) :=
  let transparent_implemented :=
    get_status_is_implemented KNOWN_CHECKS "a-transparent-flow" in
  for_each (transparent_gap KNOWN_CHECKS transparent_implemented)
           ["a"; "ins"; "del"; "object"; "video"; "audio"; "map"].

(** 5. Interactive content. *)
Definition interactive_gaps (KNOWN_CHECKS : odict sdict) : result (list GapItem) :=
  let known_i := od_get "interactive-in-interactive" KNOWN_CHECKS in
  gap ← not_implemented known_i;
  mret (if gap : bool
        then [mkGapItem "element-nesting" interactive_description
                "medium" "mod/html5/phrase.rnc"
                ["a"; "button"; "input"; "select"; "textarea"; "label"]
                (match known_i with
                 | Some d => if dict_truthy d then "partial" else "missing"
                 | None => "missing"
                 end)
                "content.go:checkNestedAnchors"
                "Only nested <a> is currently checked"]
        else []).

(** 6 to 8. Input attributes, picture, figcaption. *)
Definition single_gap (KNOWN_CHECKS : odict sdict) (key : string) (g : GapItem)
    : result (list GapItem) :=
  gap ← not_implemented (od_get key KNOWN_CHECKS);
  mret (if gap : bool then [g] else []).

Definition input_gap : GapItem :=
  mkGapItem "attribute"
    ("<input> type attribute constrains which other attributes are allowed. "
     +:+ "For example, 'checked' is only valid on type='checkbox' and type='radio'. "
     +:+ "The schema defines 13+ input type variants with distinct attribute sets.")
    "low" "mod/html5/web-forms.rnc" ["input"] "missing" "" "".

Definition picture_gap : GapItem :=
  mkGapItem "content-model"
    ("<picture> must contain <source> elements followed by exactly one <img>. "
     +:+ "The <img> must be the last child.")
    "low" "mod/html5/embed.rnc" ["picture"; "source"; "img"] "missing" "" "".

Definition figure_gap : GapItem :=
  mkGapItem "content-model"
    ("<figcaption> must be the first or last child of <figure>. "
     +:+ "It cannot appear in the middle.")
    "low" "mod/html5/media.rnc" ["figure"; "figcaption"] "missing" "" "".

(** [analyze_gaps], with the registry passed explicitly; the function
    does not read its two arguments. *)
Definition analyze_gaps (KNOWN_CHECKS : odict sdict)
    (elements : odict ElementDef) (content_rules : odict ContentRule)
    : result (list GapItem) :=
  g1 ← phrasing_gaps KNOWN_CHECKS;
  g2 ← void_gaps KNOWN_CHECKS;
  g3 ← restricted_gaps KNOWN_CHECKS;
  g4 ← transparent_gaps KNOWN_CHECKS;
  g5 ← interactive_gaps KNOWN_CHECKS;
  g6 ← single_gap KNOWN_CHECKS "input-type" input_gap;
  g7 ← single_gap KNOWN_CHECKS "picture-img-required" picture_gap;
  g8 ← single_gap KNOWN_CHECKS "figure-figcaption-position" figure_gap;
  mret (g1 ++ g2 ++ g3 ++ g4 ++ g5 ++ g6 ++ g7 ++ g8).

(** The exit status of [main] once the grammar is parsed: an uncaught
    exception gives 1, [sys.exit(2)] is reached when a gap has priority
    high, and falling off the end of [main] gives 0.  (Sorting the gaps
    by priority before the report does not change which gaps there are.) *)
Definition exit_status (KNOWN_CHECKS : odict sdict) (file_list : list RncFile) : nat :=
  let '(elements, content_rules, _) := parse_rnc_files file_list in
  match analyze_gaps KNOWN_CHECKS elements content_rules with
  | Raise _ => 1
  | Ok gaps =>
      match filter (fun g => priority g = "high") gaps with
      | [] => 0
      | _ => 2
      end
  end.

End RelaxngAudit.

(** ** The hand-maintained tables *)

(** [KNOWN_OVERRIDES] of [java-audit.py]. *)
Module JavaTable.
Import Py.

Definition KNOWN_OVERRIDES : odict sdict :=
  [("ACC-001",
    {["status" := "implemented"; "go" := "accessibility.go";
      "note" := "accessibility metadata check"]});
   ("ACC-002",
    {["status" := "implemented"; "go" := "accessibility.go"; "note" := "alt text check"]});
   ("ACC-003",
    {["status" := "implemented"; "go" := "accessibility.go"; "note" := "alt text check"]});
   ("ACC-004",
    {["status" := "implemented"; "go" := "accessibility.go"; "note" := "link text check"]});
   ("ACC-005",
    {["status" := "implemented"; "go" := "accessibility.go"; "note" := "table heading check"]});
   ("ACC-006",
    {["status" := "implemented"; "go" := "accessibility.go"; "note" := "table thead check"]});
   ("ACC-007",
    {["status" := "implemented"; "go" := "accessibility.go";
      "note" := "epub:type semantic check"]});
   ("ACC-008",
    {["status" := "implemented"; "go" := "accessibility.go";
      "note" := "accessibility metadata check"]});
   ("ACC-009",
    {["status" := "implemented"; "go" := "accessibility.go"; "note" := "MathML alttext check"]});
   ("ACC-010",
    {["status" := "implemented"; "go" := "accessibility.go"; "note" := "landmarks check"]});
   ("ACC-011",
    {["status" := "wontfix";
      "note" := "SVG hyperlink accessible name; niche SVG-specific check"]});
   ("CHK-001",
    {["status" := "wontfix";
      "note" := "epubcheck custom message overrides file; internal to epubcheck"]});
   ("CHK-002",
    {["status" := "wontfix"; "note" := "epubcheck custom message overrides; internal"]});
   ("CHK-003",
    {["status" := "wontfix"; "note" := "epubcheck custom message overrides; internal"]});
   ("CHK-004",
    {["status" := "wontfix"; "note" := "epubcheck custom message overrides; internal"]});
   ("CHK-005",
    {["status" := "wontfix"; "note" := "epubcheck custom message overrides; internal"]});
   ("CHK-006",
    {["status" := "wontfix"; "note" := "epubcheck custom message overrides; internal"]});
   ("CHK-007",
    {["status" := "wontfix"; "note" := "epubcheck custom message overrides; internal"]});
   ("CHK-008",
    {["status" := "implemented"; "go" := "epub2.go";
      "note" := "error processing item; skip further checks"]});
   ("SCP-001",
    {["status" := "wontfix";
      "note" := "scripting check; all SCP codes are SUPPRESSED in epubcheck"]});
   ("SCP-002", {["status" := "wontfix"; "note" := "scripting check; SUPPRESSED"]});
   ("SCP-003", {["status" := "wontfix"; "note" := "scripting check; SUPPRESSED"]});
   ("SCP-004", {["status" := "wontfix"; "note" := "scripting check; SUPPRESSED"]});
   ("SCP-005", {["status" := "wontfix"; "note" := "scripting check; SUPPRESSED"]});
   ("SCP-006", {["status" := "wontfix"; "note" := "scripting check; SUPPRESSED"]});
   ("SCP-007", {["status" := "wontfix"; "note" := "scripting check; SUPPRESSED"]});
   ("SCP-008", {["status" := "wontfix"; "note" := "scripting check; SUPPRESSED"]});
   ("SCP-009", {["status" := "wontfix"; "note" := "scripting check; SUPPRESSED"]});
   ("SCP-010", {["status" := "wontfix"; "note" := "scripting check; SUPPRESSED"]});
   ("INF-001",
    {["status" := "wontfix";
      "note" := "informational message about rule under review; meta-level"]});
   ("OPF-004",
    {["status" := "implemented"; "go" := "opf.go";
      "note" := "prefix declaration leading/trailing whitespace"]});
   ("OPF-004a", {["status" := "implemented"; "go" := "opf.go"; "note" := "empty prefix"]});
   ("OPF-004b",
    {["status" := "implemented"; "go" := "opf.go"; "note" := "prefix not valid NCName"]});
   ("OPF-004c",
    {["status" := "implemented"; "go" := "opf.go"; "note" := "prefix not followed by colon"]});
   ("OPF-004d",
    {["status" := "implemented"; "go" := "opf.go"; "note" := "prefix not separated by space"]});
   ("OPF-004e",
    {["status" := "implemented"; "go" := "opf.go";
      "note" := "illegal whitespace between prefix and URI"]});
   ("OPF-004f",
    {["status" := "implemented"; "go" := "opf.go";
      "note" := "illegal whitespace between prefix mappings"]});
   ("RSC-005",
    {["status" := "implemented"; "go" := "content.go/opf.go/ocf.go";
      "note" := "schema validation error; covers RelaxNG and content model checks"]});
   ("RSC-016",
    {["status" := "implemented"; "go" := "opf.go/content.go";
      "note" := "fatal XML parse error"]});
   ("HTM-051",
    {["status" := "wontfix"; "note" := "EDUPUB Microdata warning; EDUPUB is defunct"]});
   ("HTM-052",
    {["status" := "wontfix"; "note" := "Data Navigation Documents; very rare feature"]});
   ("OPF-064", {["status" := "wontfix"; "note" := "INFO: declares type; informational only"]});
   ("OPF-077",
    {["status" := "wontfix"; "note" := "Data Navigation Document spine warning; very niche"]});
   ("OPF-078",
    {["status" := "wontfix"; "note" := "EPUB Dictionary content check; very niche"]});
   ("OPF-079",
    {["status" := "wontfix"; "note" := "EPUB Dictionary dc:type check; very niche"]});
   ("OPF-080",
    {["status" := "wontfix"; "note" := "Search Key Map file extension; EPUB Dictionary"]});
   ("OPF-081",
    {["status" := "wontfix";
      "note" := "EPUB Dictionary collection resource not found; very niche"]});
   ("OPF-082",
    {["status" := "wontfix"; "note" := "EPUB Dictionary multiple Search Key Maps; very niche"]});
   ("OPF-083",
    {["status" := "wontfix"; "note" := "EPUB Dictionary no Search Key Map; very niche"]});
   ("OPF-084",
    {["status" := "wontfix";
      "note" := "EPUB Dictionary invalid collection resource; very niche"]});
   ("OPF-071", {["status" := "wontfix"; "note" := "Index collections XHTML only; very niche"]});
   ("OPF-075",
    {["status" := "wontfix"; "note" := "Preview collections content docs only; very niche"]});
   ("OPF-076", {["status" := "wontfix"; "note" := "Preview collections no CFI; very niche"]});
   ("RSC-021",
    {["status" := "wontfix"; "note" := "Search Key Map Document spine check; EPUB Dictionary"]});
   ("RSC-022",
    {["status" := "wontfix";
      "note" := "Java version check for image details; not applicable to Go"]});
   ("OPF-019",
    {["status" := "implemented"; "go" := "opf.go";
      "note" := "dcterms:modified format; SUPPRESSED in epubcheck (reported as RSC-005)"]});
   ("OPF-009",
    {["status" := "wontfix";
      "note" := "SUPPRESSED; duplicate manifest item ID (handled by XML parser)"]});
   ("OPF-020",
    {["status" := "wontfix"; "note" := "SUPPRESSED; role attribute deprecated syntax"]});
   ("OPF-046",
    {["status" := "wontfix"; "note" := "SUPPRESSED; spine toc attribute presence check"]});
   ("OPF-056", {["status" := "wontfix"; "note" := "SUPPRESSED; meta generator info"]});
   ("OPF-057",
    {["status" := "wontfix"; "note" := "SUPPRESSED; image file size check (not spec)"]});
   ("OPF-058",
    {["status" := "wontfix"; "note" := "SUPPRESSED; dc:creator/contributor meta parsing"]});
   ("OPF-059", {["status" := "wontfix"; "note" := "SUPPRESSED; bindings handler media-type"]});
   ("OPF-068", {["status" := "wontfix"; "note" := "SUPPRESSED; unknown DC metadata element"]});
   ("OPF-069", {["status" := "wontfix"; "note" := "SUPPRESSED; dc:contributor vs. metadata"]});
   ("OPF-051",
    {["status" := "wontfix"; "note" := "SUPPRESSED; image dimensions exceed recommended size"]});
   ("HTM-005",
    {["status" := "wontfix"; "note" := "SUPPRESSED as USAGE; external reference found"]});
   ("HTM-006", {["status" := "wontfix"; "note" := "SUPPRESSED; style attribute check"]});
   ("HTM-008", {["status" := "wontfix"; "note" := "SUPPRESSED; hyperlink check"]});
   ("HTM-012",
    {["status" := "wontfix"; "note" := "SUPPRESSED; deprecated element in content"]});
   ("HTM-013", {["status" := "wontfix"; "note" := "SUPPRESSED; HTML5 deprecated element"]});
   ("HTM-014", {["status" := "wontfix"; "note" := "SUPPRESSED; content type mismatch"]});
   ("HTM-014a",
    {["status" := "wontfix"; "note" := "SUPPRESSED; content type mismatch variant"]});
   ("HTM-015",
    {["status" := "implemented"; "go" := "content.go";
      "note" := "SUPPRESSED but implemented for doctor mode"]});
   ("HTM-016",
    {["status" := "implemented"; "go" := "content.go";
      "note" := "SUPPRESSED; epub:switch deprecated"]});
   ("HTM-017",
    {["status" := "implemented"; "go" := "content.go";
      "note" := "SUPPRESSED; reported as RSC-005"]});
   ("HTM-018", {["status" := "wontfix"; "note" := "SUPPRESSED; unused namespace declaration"]});
   ("HTM-019", {["status" := "wontfix"; "note" := "SUPPRESSED; non-standard namespace"]});
   ("HTM-020", {["status" := "wontfix"; "note" := "SUPPRESSED; namespace prefix mismatch"]});
   ("HTM-021",
    {["status" := "implemented"; "go" := "content.go";
      "note" := "SUPPRESSED; position:absolute in inline style"]});
   ("HTM-022", {["status" := "wontfix"; "note" := "SUPPRESSED; duplicate accesskey values"]});
   ("HTM-023",
    {["status" := "implemented"; "go" := "content.go"; "note" := "SUPPRESSED; empty heading"]});
   ("HTM-024", {["status" := "wontfix"; "note" := "SUPPRESSED; heading level skip"]});
   ("HTM-027", {["status" := "wontfix"; "note" := "SUPPRESSED; hgroup content model"]});
   ("HTM-028", {["status" := "wontfix"; "note" := "SUPPRESSED; obsolete EPUB attribute"]});
   ("HTM-029", {["status" := "wontfix"; "note" := "SUPPRESSED; hyperlink to non-spine item"]});
   ("HTM-033",
    {["status" := "implemented"; "go" := "content.go";
      "note" := "SUPPRESSED; head element issue"]});
   ("HTM-036", {["status" := "wontfix"; "note" := "SUPPRESSED; IFrame found"]});
   ("HTM-038", {["status" := "wontfix"; "note" := "SUPPRESSED; img usemap attribute"]});
   ("HTM-044", {["status" := "wontfix"; "note" := "USAGE; unused namespace URI"]});
   ("HTM-045", {["status" := "wontfix"; "note" := "USAGE; empty href encountered"]});
   ("HTM-049", {["status" := "wontfix"; "note" := "SUPPRESSED; reported as RSC-005"]});
   ("HTM-050", {["status" := "wontfix"; "note" := "SUPPRESSED; RDFa attribute"]});
   ("MED-001", {["status" := "wontfix"; "note" := "SUPPRESSED; deprecated media type"]});
   ("MED-002",
    {["status" := "implemented"; "go" := "media.go";
      "note" := "SUPPRESSED but partially tracked"]});
   ("MED-006", {["status" := "wontfix"; "note" := "SUPPRESSED; audio codec check"]});
   ("CSS-006", {["status" := "wontfix"; "note" := "USAGE; CSS position:fixed check"]});
   ("CSS-009", {["status" := "wontfix"; "note" := "SUPPRESSED; CSS property check"]});
   ("CSS-010", {["status" := "wontfix"; "note" := "SUPPRESSED; CSS property check"]});
   ("CSS-012", {["status" := "wontfix"; "note" := "SUPPRESSED; CSS property check"]});
   ("CSS-013", {["status" := "wontfix"; "note" := "SUPPRESSED; CSS property check"]});
   ("CSS-016", {["status" := "wontfix"; "note" := "SUPPRESSED; CSS property check"]});
   ("CSS-017", {["status" := "wontfix"; "note" := "SUPPRESSED; CSS property check"]});
   ("CSS-020", {["status" := "wontfix"; "note" := "SUPPRESSED; CSS property check"]});
   ("CSS-021", {["status" := "wontfix"; "note" := "SUPPRESSED; CSS property check"]});
   ("CSS-022", {["status" := "wontfix"; "note" := "SUPPRESSED; CSS property check"]});
   ("CSS-023", {["status" := "wontfix"; "note" := "SUPPRESSED; CSS property check"]});
   ("CSS-024", {["status" := "wontfix"; "note" := "SUPPRESSED; CSS property check"]});
   ("CSS-025", {["status" := "wontfix"; "note" := "SUPPRESSED; CSS property check"]});
   ("NCX-002", {["status" := "wontfix"; "note" := "SUPPRESSED; reported as RSC-005"]});
   ("NCX-003", {["status" := "wontfix"; "note" := "SUPPRESSED; NCX structure check"]});
   ("NCX-004", {["status" := "wontfix"; "note" := "USAGE; NCX dtb:uid whitespace"]});
   ("NCX-005", {["status" := "wontfix"; "note" := "SUPPRESSED; NCX structure check"]});
   ("NAV-002", {["status" := "wontfix"; "note" := "SUPPRESSED; nav span no heading"]});
   ("NAV-004", {["status" := "wontfix"; "note" := "USAGE; EDUPUB heading hierarchy"]});
   ("PKG-001",
    {["status" := "wontfix"; "note" := "WARNING; version mismatch info (handled differently)"]});
   ("PKG-015",
    {["status" := "wontfix";
      "note" := "FATAL; unable to read EPUB contents (covered by PKG-008)"]});
   ("PKG-017", {["status" := "wontfix"; "note" := "WARNING; uncommon file extension"]});
   ("PKG-018",
    {["status" := "wontfix"; "note" := "FATAL; EPUB file not found (handled by Go os.Open)"]});
   ("PKG-020",
    {["status" := "wontfix"; "note" := "ERROR; OPF file not found (covered by OPF-002)"]});
   ("PKG-023", {["status" := "wontfix"; "note" := "USAGE; EPUB 2 default validation profile"]});
   ("PKG-024", {["status" := "wontfix"; "note" := "USAGE; uncommon file extension"]});
   ("RSC-018", {["status" := "wontfix"; "note" := "SUPPRESSED; reported as RSC-007"]});
   ("RSC-019",
    {["status" := "wontfix"; "note" := "WARNING; multi-rendition metadata.xml suggestion"]});
   ("RSC-023", {["status" := "wontfix"; "note" := "SUPPRESSED; reported as RSC-020"]});
   ("RSC-024", {["status" := "wontfix"; "note" := "USAGE; informative parsing warning"]});
   ("OPF-011",
    {["status" := "wontfix";
      "note" := "commented out in epubcheck (dead code); page-spread mutual exclusivity handled by OPF-088"]});
   ("OPF-021",
    {["status" := "wontfix";
      "note" := "WARNING; non-registered URI scheme in DTBook only; very niche DAISY/DTBook feature"]});
   ("OPF-047",
    {["status" := "wontfix";
      "note" := "USAGE; OEBPS 1.2 syntax info; already handled via IsLegacyOEBPS12 detection"]});
   ("OPF-066",
    {["status" := "wontfix";
      "note" := "ERROR; pagination source metadata; only checked for EDUPUB profile (defunct)"]});
   ("OPF-097",
    {["status" := "wontfix";
      "note" := "USAGE; unreferenced manifest item; requires full reference tracking infrastructure"]})].

End JavaTable.

(** [KNOWN_CHECKS] of [schematron-audit.py]. *)
Module SchematronTable.
Import Py.

Definition KNOWN_CHECKS : odict sdict :=
  [("opf.uid", {["status" := "implemented"; "go" := "opf.go:checkUniqueIdentifierResolves"]});
   ("opf.dcterms.modified",
    {["status" := "implemented"; "go" := "opf.go:checkDCTermsModifiedExactlyOnce"]});
   ("opf.dcterms.modified.syntax",
    {["status" := "implemented"; "go" := "opf.go:checkDCTermsModifiedFormat"]});
   ("opf.link.record", {["status" := "implemented"; "go" := "opf.go:checkLinkRelation"]});
   ("opf.link.voicing", {["status" := "implemented"; "go" := "opf.go:checkLinkRelation"]});
   ("opf.refines.relative",
    {["status" := "implemented"; "go" := "opf.go:checkMetaRefinesTarget"]});
   ("opf.refines.by-fragment",
    {["status" := "partial"; "go" := "opf.go:checkMetaRefinesTarget";
      "note" := "warns for file-path refines but doesn't suggest fragment IDs"]});
   ("opf.refines.fragment-exists",
    {["status" := "implemented"; "go" := "opf.go:checkMetaRefinesTarget"]});
   ("opf.dc.subject.authority-term",
    {["status" := "implemented"; "go" := "opf.go:checkMetaRefinesPropertyRules"]});
   ("opf.meta.authority",
    {["status" := "implemented"; "go" := "opf.go:checkMetaRefinesPropertyRules"]});
   ("opf.meta.belongs-to-collection",
    {["status" := "implemented"; "go" := "opf.go:checkMetaRefinesPropertyRules"]});
   ("opf.meta.collection-type",
    {["status" := "implemented"; "go" := "opf.go:checkMetaRefinesPropertyRules"]});
   ("opf.meta.display-seq",
    {["status" := "implemented"; "go" := "opf.go:checkMetaRefinesPropertyRules"]});
   ("opf.meta.file-as",
    {["status" := "implemented"; "go" := "opf.go:checkMetaRefinesPropertyRules"]});
   ("opf.meta.group-position",
    {["status" := "implemented"; "go" := "opf.go:checkMetaRefinesPropertyRules"]});
   ("opf.meta.identifier-type",
    {["status" := "implemented"; "go" := "opf.go:checkMetaRefinesPropertyRules"]});
   ("opf.meta.role",
    {["status" := "implemented"; "go" := "opf.go:checkMetaRefinesPropertyRules"]});
   ("opf.meta.source-of",
    {["status" := "implemented"; "go" := "opf.go:checkMetaRefinesPropertyRules"]});
   ("opf.meta.term",
    {["status" := "implemented"; "go" := "opf.go:checkMetaRefinesPropertyRules"]});
   ("opf.meta.title-type",
    {["status" := "implemented"; "go" := "opf.go:checkMetaRefinesPropertyRules"]});
   ("opf.itemref", {["status" := "implemented"; "go" := "opf.go:checkSpineIdrefResolves"]});
   ("opf.toc.ncx", {["status" := "implemented"; "go" := "opf.go:checkNCXIdentification"]});
   ("opf.toc.ncx.2", {["status" := "implemented"; "go" := "opf.go:checkNCXIdentification"]});
   ("opf.nav.prop", {["status" := "implemented"; "go" := "opf.go:checkNavProperty"]});
   ("opf.nav.type", {["status" := "implemented"; "go" := "opf.go:checkNavProperty"]});
   ("opf.datanav.prop",
    {["status" := "partial"; "go" := "opf.go";
      "note" := "data-nav accepted but cardinality <=1 not enforced"]});
   ("opf.cover-image", {["status" := "implemented"; "go" := "opf.go:checkCoverImageUnique"]});
   ("opf.rendition.globals",
    {["status" := "implemented"; "go" := "opf.go:checkRenditionProperties"]});
   ("opf.rendition.overrides",
    {["status" := "implemented"; "go" := "opf.go:checkRenditionProperties"]});
   ("opf.collection.refines-restriction",
    {["status" := "partial"; "go" := "opf.go:checkCollections";
      "note" := "collection roles checked but @refines scoping not validated"]});
   ("opf_guideReferenceUnique",
    {["status" := "implemented"; "go" := "opf.go:checkGuideDuplicates"]});
   ("opf.duration.metadata.item",
    {["status" := "implemented"; "go" := "opf.go:checkMetaRefinesPropertyRules"]});
   ("opf.media.overlay", {["status" := "implemented"; "go" := "opf.go:checkMediaOverlayType"]});
   ("opf.media.overlay.metadata.global",
    {["status" := "implemented"; "go" := "opf.go:checkMediaOverlayDurationMeta"]});
   ("opf.media.overlay.metadata.item",
    {["status" := "implemented"; "go" := "opf.go:checkMediaOverlayDurationMeta"]});
   ("opf.media.overlay.metadata.active-class",
    {["status" := "implemented"; "go" := "opf.go:checkMetaRefinesPropertyRules"]});
   ("opf.media.overlay.metadata.playback-active-class",
    {["status" := "implemented"; "go" := "opf.go:checkMetaRefinesPropertyRules"]});
   ("opf.spine.duplicate.refs",
    {["status" := "implemented"; "go" := "opf.go:checkSpineUniqueIdrefs"]});
   ("opf.bindings.deprecated", {["status" := "implemented"; "go" := "opf.go"]});
   ("opf.meta.meta-auth.deprecated",
    {["status" := "implemented"; "go" := "opf.go:checkMetaRefinesPropertyRules"]});
   ("encoding.decl.state",
    {["status" := "implemented"; "go" := "content.go:checkEncodingDecl"]});
   ("title.present", {["status" := "implemented"; "go" := "content.go:checkContentHasTitle"]});
   ("title.non-empty",
    {["status" := "implemented"; "go" := "content.go:checkContentHasTitle"]});
   ("epub.switch.deprecated",
    {["status" := "implemented"; "go" := "content.go:checkEpubSwitchTrigger"]});
   ("epub.trigger.deprecated",
    {["status" := "implemented"; "go" := "content.go:checkEpubSwitchTrigger"]});
   ("lang-xmllang", {["status" := "implemented"; "go" := "content.go:checkLangXMLLangMatch"]});
   ("id-unique", {["status" := "implemented"; "go" := "content.go:checkUniqueIDs"]});
   ("dpub-aria.doc-endnote.deprecated",
    {["status" := "implemented"; "go" := "content.go:checkDeprecatedDPUBARIA"]});
   ("md-a-area", {["status" := "implemented"; "go" := "content.go:checkMicrodataAttrs"]});
   ("md-iframe-embed-object",
    {["status" := "partial"; "go" := "content.go:checkMicrodataAttrs";
      "note" := "object checked, iframe/embed may be incomplete"]});
   ("map.id", {["status" := "implemented"; "go" := "content.go:checkImageMapValid"]});
   ("descendant-dfn-dfn", {["status" := "implemented"; "go" := "content.go:checkNestedDFN"]});
   ("descendant-a-interactive",
    {["status" := "implemented"; "go" := "content.go:checkInteractiveNesting"]});
   ("descendant-button-interactive",
    {["status" := "implemented"; "go" := "content.go:checkInteractiveNesting"]});
   ("descendant-audio-audio",
    {["status" := "implemented"; "go" := "content.go:checkInteractiveNesting"]});
   ("descendant-audio-video",
    {["status" := "implemented"; "go" := "content.go:checkInteractiveNesting"]});
   ("descendant-video-video",
    {["status" := "implemented"; "go" := "content.go:checkInteractiveNesting"]});
   ("descendant-video-audio",
    {["status" := "implemented"; "go" := "content.go:checkInteractiveNesting"]});
   ("descendant-address-address",
    {["status" := "implemented"; "go" := "content.go:checkDisallowedDescendants"]});
   ("descendant-address-header",
    {["status" := "implemented"; "go" := "content.go:checkDisallowedDescendants"]});
   ("descendant-address-footer",
    {["status" := "implemented"; "go" := "content.go:checkDisallowedDescendants"]});
   ("descendant-form-form",
    {["status" := "implemented"; "go" := "content.go:checkDisallowedDescendants"]});
   ("descendant-progress-progress",
    {["status" := "implemented"; "go" := "content.go:checkDisallowedDescendants"]});
   ("descendant-meter-meter",
    {["status" := "implemented"; "go" := "content.go:checkDisallowedDescendants"]});
   ("descendant-caption-table",
    {["status" := "implemented"; "go" := "content.go:checkDisallowedDescendants"]});
   ("descendant-header-header",
    {["status" := "implemented"; "go" := "content.go:checkDisallowedDescendants"]});
   ("descendant-header-footer",
    {["status" := "implemented"; "go" := "content.go:checkDisallowedDescendants"]});
   ("descendant-footer-footer",
    {["status" := "implemented"; "go" := "content.go:checkDisallowedDescendants"]});
   ("descendant-footer-header",
    {["status" := "implemented"; "go" := "content.go:checkDisallowedDescendants"]});
   ("descendant-label-label",
    {["status" := "implemented"; "go" := "content.go:checkDisallowedDescendants"]});
   ("ancestor-area-map",
    {["status" := "implemented"; "go" := "content.go:checkRequiredAncestor"]});
   ("ancestor-imgismap-ahref",
    {["status" := "implemented"; "go" := "content.go:checkRequiredAncestor"]});
   ("bdo-dir", {["status" := "implemented"; "go" := "content.go:checkBdoDir"]});
   ("idref-aria-activedescendant",
    {["status" := "implemented"; "go" := "content.go:checkIDReferences"]});
   ("idref-label-for", {["status" := "implemented"; "go" := "content.go:checkIDReferences"]});
   ("idref-input-list", {["status" := "implemented"; "go" := "content.go:checkIDReferences"]});
   ("idref-forms-form", {["status" := "implemented"; "go" := "content.go:checkIDReferences"]});
   ("idrefs-headers", {["status" := "implemented"; "go" := "content.go:checkIDReferences"]});
   ("idrefs-aria-describedby",
    {["status" := "implemented"; "go" := "content.go:checkIDReferences"]});
   ("idrefs-output-for", {["status" := "implemented"; "go" := "content.go:checkIDReferences"]});
   ("idrefs-aria-flowto",
    {["status" := "implemented"; "go" := "content.go:checkIDReferences"]});
   ("idrefs-aria-labelledby",
    {["status" := "implemented"; "go" := "content.go:checkIDReferences"]});
   ("idrefs-aria-owns", {["status" := "implemented"; "go" := "content.go:checkIDReferences"]});
   ("idrefs-aria-controls",
    {["status" := "implemented"; "go" := "content.go:checkIDReferences"]});
   ("idref-trigger-observer",
    {["status" := "implemented"; "go" := "content.go:checkIDReferences"]});
   ("idref-trigger-ref", {["status" := "implemented"; "go" := "content.go:checkIDReferences"]});
   ("idref-mathml-xref",
    {["status" := "partial"; "go" := "content.go:checkIDReferences";
      "note" := "MathML xref not tracked by checkIDReferences (only XHTML namespace)"]});
   ("idref-mathml-indenttarget",
    {["status" := "partial"; "go" := "content.go:checkIDReferences";
      "note" := "MathML indenttarget not tracked by checkIDReferences (only XHTML namespace)"]});
   ("ssml-ph", {["status" := "implemented"; "go" := "content.go:checkSSMLPhNesting"]});
   ("map.name", {["status" := "implemented"; "go" := "content.go:checkDuplicateMapName"]});
   ("select-multiple", {["status" := "implemented"; "go" := "content.go:checkSelectMultiple"]});
   ("meta-charset", {["status" := "implemented"; "go" := "content.go:checkMetaCharset"]});
   ("link-sizes", {["status" := "implemented"; "go" := "content.go:checkLinkSizes"]});
   ("track",
    {["status" := "partial"; "go" := "";
      "note" := "track label uniqueness not yet implemented"]});
   ("md-media",
    {["status" := "partial"; "go" := "content.go:checkMicrodataAttrs";
      "note" := "microdata media element checks not yet complete"]});
   ("nav-ocurrence", {["status" := "implemented"; "go" := "content.go:checkNavContentModel"]});
   ("span-no-sublist",
    {["status" := "partial"; "go" := "content.go:checkNavContentModel";
      "note" := "checks li+span must have ol child, but not the reverse"]});
   ("landmarks", {["status" := "implemented"; "go" := "content.go:checkNavContentModel"]});
   ("link-labels", {["status" := "implemented"; "go" := "content.go:checkNavContentModel"]});
   ("span-labels", {["status" := "implemented"; "go" := "content.go:checkNavContentModel"]});
   ("req-heading", {["status" := "implemented"; "go" := "content.go:checkNavContentModel"]});
   ("heading-content",
    {["status" := "implemented"; "go" := "content.go:checkNavContentModel"]});
   ("flat-nav", {["status" := "implemented"; "go" := "content.go:checkNavContentModel"]});
   ("ocf-enc.id-unique",
    {["status" := "implemented"; "go" := "ocf.go:checkEncryptionXMLFull"]});
   ("ocf.uid",
    {["status" := "wontfix";
      "note" := "multi-rendition metadata.xml; OPF equivalent in opf.go"]});
   ("ocf.dcterms.modified",
    {["status" := "wontfix";
      "note" := "multi-rendition metadata.xml; OPF equivalent in opf.go"]});
   ("ocf.dcterms.modified.syntax",
    {["status" := "wontfix";
      "note" := "multi-rendition metadata.xml; OPF equivalent in opf.go"]});
   ("ocf.refines.relative",
    {["status" := "wontfix";
      "note" := "multi-rendition metadata.xml; OPF equivalent in opf.go"]});
   ("ocf.meta.source-of",
    {["status" := "wontfix";
      "note" := "multi-rendition metadata.xml; OPF equivalent in opf.go"]});
   ("ocf.link.record",
    {["status" := "wontfix";
      "note" := "multi-rendition metadata.xml; OPF equivalent in opf.go"]});
   ("ocf.meta.belongs-to-collection",
    {["status" := "wontfix";
      "note" := "multi-rendition metadata.xml; OPF equivalent in opf.go"]});
   ("ocf.meta.collection-type",
    {["status" := "wontfix";
      "note" := "multi-rendition metadata.xml; OPF equivalent in opf.go"]});
   ("ocf.rendition.globals",
    {["status" := "wontfix";
      "note" := "multi-rendition metadata.xml; OPF equivalent in opf.go"]});
   ("do.collection",
    {["status" := "wontfix";
      "note" := "distributable-object collection structure; very rare in practice"]});
   ("manifest.collection",
    {["status" := "partial"; "go" := "opf.go:checkCollections";
      "note" := "top-level check done; child content/link count checks not yet implemented"]});
   ("selection.accessModes",
    {["status" := "wontfix"; "note" := "multi-rendition container.xml; very rare"]});
   ("selection.mandatingOneSelectionAttribute",
    {["status" := "wontfix"; "note" := "multi-rendition container.xml; very rare"]});
   ("mapping.atMostOne",
    {["status" := "wontfix"; "note" := "multi-rendition container.xml; very rare"]});
   ("mapping.mediaType",
    {["status" := "wontfix"; "note" := "multi-rendition container.xml; very rare"]})].

End SchematronTable.

(** [KNOWN_CHECKS] of [relaxng-audit.py]. *)
Module RelaxngTable.
Import Py.

Definition KNOWN_CHECKS : odict sdict :=
  [("valid-html-elements",
    {["status" := "implemented"; "go" := "content.go:checkInvalidHTMLElements";
      "note" := "Validates against validHTMLElements map with 100+ elements"]});
   ("obsolete-elements",
    {["status" := "implemented"; "go" := "content.go:checkNoObsoleteElements";
      "note" := "center, font, basefont, big, blink, marquee, etc."]});
   ("obsolete-attributes",
    {["status" := "implemented"; "go" := "content.go:checkObsoleteAttrs";
      "note" := "Deprecated presentation attributes per element"]});
   ("p-phrasing-only",
    {["status" := "implemented"; "go" := "content.go:checkBlockInPhrasing";
      "note" := "<p> allows only phrasing content; block children flagged as RSC-005"]});
   ("h1-h6-phrasing-only",
    {["status" := "implemented"; "go" := "content.go:checkBlockInPhrasing";
      "note" := "Headings allow only phrasing content; block children flagged as RSC-005"]});
   ("span-phrasing-only",
    {["status" := "implemented"; "go" := "content.go:checkBlockInPhrasing";
      "note" := "<span> allows only phrasing content; block children flagged as RSC-005"]});
   ("pre-phrasing-only",
    {["status" := "implemented"; "go" := "content.go:checkBlockInPhrasing";
      "note" := "<pre> allows only phrasing content; block children flagged as RSC-005"]});
   ("block-in-phrasing",
    {["status" := "implemented"; "go" := "content.go:checkBlockInPhrasing";
      "note" := "Block elements (div, p, table, ul, ol, etc.) inside phrasing-only parents"]});
   ("nested-dfn", {["status" := "implemented"; "go" := "content.go:checkNestedDFN"]});
   ("nested-a", {["status" := "implemented"; "go" := "content.go:checkNestedAnchors"]});
   ("nested-time", {["status" := "implemented"; "go" := "content.go:checkNestedTime"]});
   ("void-elements-no-children",
    {["status" := "implemented"; "go" := "content.go:checkVoidElementChildren";
      "note" := "Void elements (br, hr, img, input, etc.) cannot have child elements"]});
   ("html-root", {["status" := "implemented"; "go" := "content.go:checkHTMLRootElement"]});
   ("single-body", {["status" := "implemented"; "go" := "content.go:checkSingleBody"]});
   ("head-required", {["status" := "implemented"; "go" := "content.go:checkContentHasHead"]});
   ("title-required", {["status" := "implemented"; "go" := "content.go:checkContentHasTitle"]});
   ("table-structure",
    {["status" := "implemented"; "go" := "content.go:checkTableContentModel";
      "note" := "Table direct children validated: caption, colgroup, thead, tbody, tfoot, tr only"]});
   ("tr-children",
    {["status" := "implemented"; "go" := "content.go:checkRestrictedChildren";
      "note" := "<tr> can only contain <td> or <th>"]});
   ("ul-ol-children",
    {["status" := "implemented"; "go" := "content.go:checkRestrictedChildren";
      "note" := "<ul>/<ol> can only contain <li> (and script-supporting elements)"]});
   ("dl-structure",
    {["status" := "implemented"; "go" := "content.go:checkRestrictedChildren";
      "note" := "<dl> can only contain <dt>, <dd>, <div> as direct children"]});
   ("select-children",
    {["status" := "implemented"; "go" := "content.go:checkRestrictedChildren";
      "note" := "<select> can only contain <option>, <optgroup>"]});
   ("video-audio-source-or-src",
    {["status" := "partial"; "go" := "content.go:checkForeignResourceFallbacks";
      "note" := "Partially checks media source types but not full content model"]});
   ("picture-img-required",
    {["status" := "implemented"; "go" := "content.go:checkPictureContentModel";
      "note" := "<picture> validated: source* then img, no other children"]});
   ("figure-figcaption-position",
    {["status" := "implemented"; "go" := "content.go:checkFigcaptionPosition";
      "note" := "<figcaption> must be first or last child of <figure>"]});
   ("svg-content-model",
    {["status" := "partial"; "go" := "content.go";
      "note" := "SVG property checking and foreignObject done; full SVG content model not validated"]});
   ("mathml-content-model",
    {["status" := "partial"; "go" := "content.go:checkMathMLContentOnly";
      "note" := "Basic MathML child element checking implemented"]});
   ("nav-content-model",
    {["status" := "implemented"; "go" := "content.go:checkNavContentModel";
      "note" := "Full nav content model validated (most complete implementation)"]});
   ("opf-schema",
    {["status" := "implemented"; "go" := "opf.go";
      "note" := "Full OPF schema validation via targeted Go checks"]});
   ("epub-switch-content",
    {["status" := "implemented"; "go" := "content.go:checkEpubSwitchTrigger"]});
   ("epub-type-attr",
    {["status" := "implemented"; "go" := "content.go:checkEpubTypeAttributes"]});
   ("ssml-attrs", {["status" := "implemented"; "go" := "content.go"]});
   ("duplicate-ids", {["status" := "implemented"; "go" := "content.go:checkDuplicateIDs"]});
   ("id-references", {["status" := "implemented"; "go" := "content.go:checkIDReferences"]});
   ("xhtml-namespace",
    {["status" := "implemented"; "go" := "content.go:checkMissingNamespace"]});
   ("encoding-declaration",
    {["status" := "implemented"; "go" := "content.go:checkEncodingDecl"]});
   ("doctype-html5", {["status" := "implemented"; "go" := "content.go:checkDoctypeHTML5"]});
   ("media-overlay-schema", {["status" := "implemented"; "go" := "media.go"]});
   ("ocf-container-schema", {["status" := "implemented"; "go" := "ocf.go"]});
   ("a-transparent-flow",
    {["status" := "implemented"; "go" := "content.go:checkTransparentContentModel";
      "note" := "<a> transparent content model inherits phrasing restriction from parent"]});
   ("ins-del-transparent",
    {["status" := "implemented"; "go" := "content.go:checkTransparentContentModel";
      "note" := "<ins>/<del> transparent content model inherits parent restriction"]});
   ("object-transparent",
    {["status" := "implemented"; "go" := "content.go:checkTransparentContentModel";
      "note" := "<object> transparent content model inherits parent restriction"]});
   ("interactive-in-interactive",
    {["status" := "implemented"; "go" := "content.go:checkInteractiveNesting";
      "note" := "All interactive elements (a, button, input, select, textarea, label, etc.) checked"]});
   ("img-alt",
    {["status" := "partial"; "go" := "accessibility.go";
      "note" := "Checked via accessibility checks, not schema validation"]});
   ("input-type",
    {["status" := "missing";
      "note" := "<input> type attribute constrains allowed attributes (schema validates this)"]})].

End RelaxngTable.

(** ** Vocabulary of the statements *)

Module Spec.
Import Py.

(** *** The enumerated-identity audit *)

(** The statuses an override entry is documented to carry. *)
Definition override_statuses : list string :=
  ["implemented"; "partial"; "wontfix"; "note"].

(** The five reconciled statuses the report counts. *)
Definition buckets : list string :=
  ["implemented"; "suppressed"; "wontfix"; "partial"; "missing"].

(** How many records of a list have a given status. *)
Definition bucket (st : string) (l : list JavaAudit.MessageInfo) : nat :=
  length (filter (fun m => JavaAudit.status m = st) l).

(** The change [apply_overrides] makes to a record for one entry. *)
Definition override_of (ov : sdict) : JavaAudit.MessageInfo → JavaAudit.MessageInfo :=
  JavaAudit.set_override (get_default ov "status") (get_default ov "note").

(** The records the scan produces: stored under their own code, with
    the override fields still at their defaults. *)
Definition pristine (c : string) (m : JavaAudit.MessageInfo) : Prop :=
  JavaAudit.code m = c ∧ JavaAudit.override_status m = "" ∧ JavaAudit.override_note m = "".

(** Two records that agree on everything but the override fields. *)
Definition same_evidence (m m' : JavaAudit.MessageInfo) : Prop :=
  JavaAudit.code m' = JavaAudit.code m
  ∧ JavaAudit.severity m' = JavaAudit.severity m
  ∧ JavaAudit.message_text m' = JavaAudit.message_text m
  ∧ JavaAudit.java_files m' = JavaAudit.java_files m
  ∧ JavaAudit.category m' = JavaAudit.category m
  ∧ JavaAudit.in_go_code m' = JavaAudit.in_go_code m
  ∧ JavaAudit.in_bdd_tests m' = JavaAudit.in_bdd_tests m.

(** A field of a JSON object. *)
Definition json_field (k : string) (j : JavaAudit.json) : option JavaAudit.json :=
  match j with
  | JavaAudit.JObj fields => od_get k fields
  | _ => None
  end.

(** A number of the [summary] object of the JSON report. *)
Definition summary_count (k : string) (j : JavaAudit.json) : option nat :=
  match json_field "summary" j ≫= json_field k with
  | Some (JavaAudit.JNum n) => Some n
  | _ => None
  end.

(** The labels of the seven aggregate lines of the text report, each with
    the key of the JSON summary it corresponds to. *)
Definition count_labels : list (string * string) :=
  [("Total message IDs defined:  ", "total");
   ("  Implemented:              ", "implemented");
   ("  Tested (BDD):             ", "tested_bdd");
   ("  Suppressed by epubcheck:  ", "suppressed");
   ("  Wontfix (too niche):      ", "wontfix");
   ("  Partial:                  ", "partial");
   ("  MISSING:                  ", "missing")].

(** The file mentions the enum name of code [c] and is not one of the two
    files the scan skips. *)
Definition emits (index : gmap string string) (c : string) (jf : JavaAudit.JavaFile) : Prop :=
  (JavaAudit.jf_name jf ∉ ["MessageId.java"; "DefaultSeverities.java"])
  ∧ ∃ refs e, JavaAudit.jf_refs jf = Some refs ∧ e ∈ refs ∧ index !! e = Some c.

(** [msgs'] is [msgs] with the origin locations of [c] extended by the
    names in [S], everything else about [c] being kept. *)
Definition grows (c : string) (S : string → Prop)
    (msgs msgs' : gmap string JavaAudit.MessageInfo) : Prop :=
  match msgs !! c with
  | None => msgs' !! c = None
  | Some m =>
      ∃ m', msgs' !! c = Some m'
            ∧ JavaAudit.set_java_files [] m' = JavaAudit.set_java_files [] m
            ∧ (NoDup (JavaAudit.java_files m) → NoDup (JavaAudit.java_files m'))
            ∧ ∀ x, x ∈ JavaAudit.java_files m' ↔ x ∈ JavaAudit.java_files m ∨ S x
  end.

(** All characters of a string satisfy a test. *)
Fixpoint all_chars (p : ascii -> bool) (s : string) : bool :=
  match s with
  | EmptyString => true
  | String a t => p a && all_chars p t
  end.

(** Letters and digits: the characters of an identifier besides the separator. *)
Definition alnum (a : ascii) : bool := is_upper a || is_digit a || is_lower a.

(** The canonical identifier shape: two or three capitals, a separator,
    three digits, at most one lower-case letter. *)
Definition canonical_parts (pre num suf : string) : Prop :=
  all_chars is_upper pre = true ∧ 2 ≤ String.length pre ≤ 3
  ∧ all_chars is_digit num = true ∧ String.length num = 3
  ∧ all_chars is_lower suf = true ∧ String.length suf ≤ 1.

(** *** The known-checks registries *)

(** The status the known-checks registry records for a pattern
    identifier, if the identifier is registered with a status. *)
Definition registry_status (KNOWN_CHECKS : odict sdict) (pid : string) : option string :=
  od_get pid KNOWN_CHECKS ≫= fun known => known !! "status".

(** Every entry of a registry has a status. *)
Definition with_status (KNOWN_CHECKS : odict sdict) : Prop :=
  Forall (fun e => is_Some (e.2 !! "status")) KNOWN_CHECKS.

(** *** The declarative-assertion audit *)

(** The three ways the registry can classify a parsed check: its
    pattern identifier is absent, registered as partial, or registered
    otherwise. *)
Definition is_missing (KNOWN_CHECKS : odict sdict) (c : SchematronAudit.SchematronCheck)
    : Prop :=
  od_get (SchematronAudit.pattern_id c) KNOWN_CHECKS = None.
Definition is_partial (KNOWN_CHECKS : odict sdict) (c : SchematronAudit.SchematronCheck)
    : Prop :=
  registry_status KNOWN_CHECKS (SchematronAudit.pattern_id c) = Some "partial".
Definition is_other (KNOWN_CHECKS : odict sdict) (c : SchematronAudit.SchematronCheck)
    : Prop :=
  is_Some (od_get (SchematronAudit.pattern_id c) KNOWN_CHECKS)
  ∧ registry_status KNOWN_CHECKS (SchematronAudit.pattern_id c) ≠ Some "partial".

#[export] Instance is_missing_dec KC c : Decision (is_missing KC c).
Proof. unfold is_missing. apply _. Defined.
#[export] Instance is_partial_dec KC c : Decision (is_partial KC c).
Proof. unfold is_partial. apply _. Defined.
#[export] Instance is_other_dec KC c : Decision (is_other KC c).
Proof. unfold is_other. apply _. Defined.

(** *** The structural-grammar audit *)

(** The matches of [elem_pat] over a file list, in the order the files
    and the matches are visited, each with the file it comes from. *)
Definition element_definitions (file_list : list RelaxngAudit.RncFile)
    : list (string * (string * string * string)) :=
  file_list ≫= fun f =>
    match RelaxngAudit.rnc_text f with
    | None => []
    | Some ms => (fun m => (RelaxngAudit.fname f, m)) <$> RelaxngAudit.elem_matches ms
    end.

(** The first definition of a tag among them. *)
Definition first_definition (tag : string) (file_list : list RelaxngAudit.RncFile)
    : option (string * (string * string * string)) :=
  List.find (fun d => String.eqb d.2.1.2 tag) (element_definitions file_list).

(** What one definition does to the element map. *)
Definition add_definition (els : odict RelaxngAudit.ElementDef)
    (d : string * (string * string * string)) : odict RelaxngAudit.ElementDef :=
  let '(f, (_, elem_name, g3)) := d in
  if od_mem elem_name els then els
  else od_add elem_name (RelaxngAudit.element_of_match f elem_name g3) els.

(** The fields the later passes of [parse_rnc_files] leave alone. *)
Definition same_origin (e e' : RelaxngAudit.ElementDef) : Prop :=
  RelaxngAudit.name e' = RelaxngAudit.name e
  ∧ RelaxngAudit.source_file e' = RelaxngAudit.source_file e.

(** A phrasing-only parent is covered when the registry records its own
    check or the general block-in-phrasing check as implemented. *)
Definition covered (KNOWN_CHECKS : odict sdict) (elem : string) : Prop :=
  registry_status KNOWN_CHECKS (elem +:+ "-phrasing-only") = Some "implemented"
  ∨ registry_status KNOWN_CHECKS "block-in-phrasing" = Some "implemented".

(** The gap items of a list that report the phrasing-only finding for an
    element. *)
Definition phrasing_findings (elem : string) (gaps : list RelaxngAudit.GapItem)
    : list RelaxngAudit.GapItem :=
  filter (fun g => RelaxngAudit.description g = RelaxngAudit.phrasing_description elem) gaps.

(** The descriptions the steps after the first can give to an item. *)
Definition other_descriptions : list string :=
  [RelaxngAudit.void_description; RelaxngAudit.interactive_description;
   RelaxngAudit.description RelaxngAudit.input_gap;
   RelaxngAudit.description RelaxngAudit.picture_gap;
   RelaxngAudit.description RelaxngAudit.figure_gap]
  ++ ((fun item => RelaxngAudit.restricted_description item.1 (sorted id (elements item.2)))
        <$> RelaxngAudit.RESTRICTED_CHILDREN)
  ++ (RelaxngAudit.transparent_description
        <$> ["a"; "ins"; "del"; "object"; "video"; "audio"; "map"]).

Definition other (g : RelaxngAudit.GapItem) : Prop :=
  RelaxngAudit.description g ∈ other_descriptions.

End Spec.

(** ** Sample inputs *)

Module Samples.
Import Py.

(** A snapshot whose enumeration defines one identifier, with no severity
    table, no message bundle, no emitters and no validator evidence. *)
Definition bare_snapshot : JavaAudit.Inputs :=
  JavaAudit.mkInputs "0f3c" (Some ["ACC_001"]) None None None [] None.

Definition note_override : odict sdict :=
  [("ACC-001", {["status" := "note"; "note" := "kept for reference"]} : gmap string string)].

(** The same, for an identifier the override table does not mention. *)
Definition opf_snapshot : JavaAudit.Inputs :=
  JavaAudit.mkInputs "0f3c" (Some ["OPF_001"]) None None None [] None.

(** Two source files that both mention [MessageId.OPF_001], and a snapshot
    whose directory walk yields the given files in the given order. *)
Definition foo_java : JavaAudit.JavaFile :=
  JavaAudit.mkJavaFile "Foo.java" "Foo" (Some ["OPF_001"]).
Definition bar_java : JavaAudit.JavaFile :=
  JavaAudit.mkJavaFile "Bar.java" "Bar" (Some ["OPF_001"]).

Definition snapshot_with (files : list JavaAudit.JavaFile) : JavaAudit.Inputs :=
  JavaAudit.mkInputs "0f3c" (Some ["OPF_001"]) None None (Some files) [] None.

Definition json_args : JavaAudit.Args := JavaAudit.mkArgs true true false.

(** A grammar registry that records only the restricted-children checks. *)
Definition lists_only : odict sdict :=
  [("ul-ol-children", {["status" := "implemented"]} : gmap string string);
   ("tr-children", {["status" := "implemented"]} : gmap string string);
   ("dl-structure", {["status" := "implemented"]} : gmap string string)].

(** Two grammar files that both define [p]. *)
Definition block_rnc : RelaxngAudit.RncFile :=
  RelaxngAudit.mkRncFile "mod/html5/block.rnc"
    (Some (RelaxngAudit.mkRncMatches
             [("p.elem", "p", " p.inner & p.attrs ")]
             [("p.inner", " common.inner.phrasing ")] ["p.elem"] [] [])).

Definition extra_rnc : RelaxngAudit.RncFile :=
  RelaxngAudit.mkRncFile "mod/epub-xhtml-inc.rnc"
    (Some (RelaxngAudit.mkRncMatches [("p.elem.extra", "p", " empty ")] [] [] [] [])).

(** Four parsed checks: one whose pattern is registered as implemented, one
    as partial, one as wontfix, and one whose pattern is not registered. *)
Definition check_of (pid : string) : SchematronAudit.SchematronCheck :=
  SchematronAudit.mkSchematronCheck "package-30.sch" pid "opf:package" "assert"
    "true()" "" false "" [].

Definition small_checks : list SchematronAudit.SchematronCheck :=
  [check_of "opf.uid"; check_of "md-media"; check_of "ocf.uid"; check_of "new.rule"].

End Samples.

(** * Proofs *)

(** ** Facts about the Python primitives *)

Module PyFacts.
Import Py.

Lemma od_get_app {V} (k : string) (d1 d2 : odict V) :
  od_get k (d1 ++ d2) = match od_get k d1 with Some v => Some v | None => od_get k d2 end.
Proof.
  induction d1 as [|[k' v] d1 IH]; simpl; [done|].
  destruct (String.eqb k k'); [done|apply IH].
Qed.

Lemma od_get_elem {V} (k : string) (v : V) (d : odict V) :
  od_get k d = Some v → (k, v) ∈ d.
Proof.
  induction d as [|[k' v'] d IH]; simpl; [done|].
  destruct (String.eqb_spec k k') as [->|Hne].
  - intros [= ->]. left.
  - intros H. right. auto.
Qed.

Lemma od_get_None {V} (k : string) (d : odict V) :
  od_get k d = None ↔ k ∉ d.*1.
Proof.
  induction d as [|[k' v'] d IH]; simpl.
  - split; [intros _; apply not_elem_of_nil|done].
  - destruct (String.eqb_spec k k') as [->|Hne].
    + split; [done|]. intros H. exfalso. apply H. left.
    + rewrite IH, not_elem_of_cons. tauto.
Qed.

Lemma od_get_NoDup {V} (k : string) (v : V) (d : odict V) :
  NoDup d.*1 → (k, v) ∈ d → od_get k d = Some v.
Proof.
  induction d as [|[k' v'] d IH]; simpl; intros Hnd Hin.
  - by apply elem_of_nil in Hin.
  - apply NoDup_cons in Hnd as [Hk' Hnd].
    apply elem_of_cons in Hin as [[= -> ->]|Hin].
    + by rewrite String.eqb_refl.
    + destruct (String.eqb_spec k k') as [->|Hne]; [|by apply IH].
      exfalso. apply Hk'. apply list_elem_of_fmap. by exists (k', v).
Qed.

Lemma od_get_reverse {V} (k : string) (d : odict V) :
  NoDup d.*1 → od_get k (reverse d) = od_get k d.
Proof.
  intros Hnd. destruct (od_get k d) as [v|] eqn:E.
  - apply od_get_NoDup.
    + by rewrite fmap_reverse, reverse_Permutation.
    + apply elem_of_reverse. by apply od_get_elem.
  - apply od_get_None. rewrite fmap_reverse, elem_of_reverse. by apply od_get_None.
Qed.

Lemma foldl_preserves {A B} (P : A → Prop) (f : A → B → A) (l : list B) (a : A) :
  (∀ a b, P a → P (f a b)) → P a → P (foldl f a l).
Proof. intros Hf. revert a. induction l; simpl; auto. Qed.

Lemma insert_sorted_perm {A} (key : A → string) (x : A) (l : list A) :
  insert_sorted key x l ≡ₚ x :: l.
Proof.
  induction l as [|y l IH]; simpl; [done|].
  destruct (String.leb _ _); [done|]. rewrite IH. apply Permutation_swap.
Qed.

Lemma sorted_perm {A} (key : A → string) (l : list A) : sorted key l ≡ₚ l.
Proof.
  induction l as [|x l IH]; simpl; [done|].
  rewrite insert_sorted_perm. by rewrite IH.
Qed.

Lemma filter_length_pos {A} (P : A → Prop) `{∀ x, Decision (P x)} (l : list A) :
  0 < length (filter P l) → ∃ x xs, filter P l = x :: xs.
Proof. destruct (filter P l); simpl; [lia|eauto]. Qed.

Lemma od_get_snoc {V} (k k' : string) (v : V) (d : odict V) :
  od_get k (od_add k' v d)
  = match od_get k d with
    | Some x => Some x
    | None => if String.eqb k k' then Some v else None
    end.
Proof.
  unfold od_add. induction d as [|[k0 v0] d IH]; simpl; [done|].
  destruct (String.eqb k k0); [done|apply IH].
Qed.

Lemma od_get_alter {V} (f : V → V) (k k' : string) (d : odict V) :
  od_get k (od_alter f k' d)
  = (if String.eqb k k' then f else id) <$> od_get k d.
Proof.
  induction d as [|[k0 v0] d IH]; simpl; [done|].
  destruct (String.eqb_spec k' k0) as [->|Hne]; simpl.
  - destruct (String.eqb_spec k k0) as [->|Hne']; [done|].
    destruct (od_get k d); done.
  - destruct (String.eqb_spec k k0) as [->|Hne'].
    + destruct (String.eqb_spec k0 k'); [congruence|done].
    + apply IH.
Qed.

Lemma od_get_fmap {V W} (g : string → V → W) (k : string) (d : odict V) :
  od_get k ((fun '(k0, v) => (k0, g k0 v)) <$> d) = g k <$> od_get k d.
Proof.
  induction d as [|[k0 v0] d IH]; simpl; [done|].
  destruct (String.eqb_spec k k0) as [->|Hne]; [done|apply IH].
Qed.

Lemma filter_none {A} (P : A → Prop) `{∀ x, Decision (P x)} (l : list A) :
  Forall (fun x => ¬ P x) l → filter P l = [].
Proof.
  induction 1 as [|x l Hx _ IH]; [done|]. rewrite filter_cons.
  by destruct (decide (P x)).
Qed.

Lemma filter_all {A} (P : A → Prop) `{∀ x, Decision (P x)} (l : list A) :
  Forall P l → filter P l = l.
Proof.
  induction 1 as [|x l Hx _ IH]; [done|]. rewrite filter_cons.
  destruct (decide (P x)); [by f_equal|done].
Qed.

End PyFacts.

(** ** The tables as they stand *)

Module TableFacts.
Import Py Spec.

(** The override table of the Java audit has one entry per code, and every
    entry carries the status [implemented] or [wontfix]. *)
Lemma KNOWN_OVERRIDES_keys : NoDup JavaTable.KNOWN_OVERRIDES.*1.
Proof. compute_done. Qed.

Lemma KNOWN_OVERRIDES_statuses :
  Forall (fun e => e.2 !! "status" = Some "implemented" ∨ e.2 !! "status" = Some "wontfix")
         JavaTable.KNOWN_OVERRIDES.
Proof. compute_done. Qed.

(** Every entry of the two known-checks registries has a status. *)
Lemma schematron_KNOWN_CHECKS_with_status : with_status SchematronTable.KNOWN_CHECKS.
Proof. compute_done. Qed.

Lemma relaxng_KNOWN_CHECKS_with_status : with_status RelaxngTable.KNOWN_CHECKS.
Proof. compute_done. Qed.

(** With the registry as it stands, the grammar audit reports the input
    attribute gap and nothing else, whatever the grammar files hold. *)
Lemma relaxng_gaps_as_registered els crs :
  RelaxngAudit.analyze_gaps RelaxngTable.KNOWN_CHECKS els crs = Ok [RelaxngAudit.input_gap].
Proof. by vm_compute. Qed.

Lemma relaxng_exit_as_registered file_list :
  RelaxngAudit.exit_status RelaxngTable.KNOWN_CHECKS file_list = 0.
Proof.
  unfold RelaxngAudit.exit_status.
  destruct (RelaxngAudit.parse_rnc_files file_list) as [[els crs] raw].
  by rewrite relaxng_gaps_as_registered.
Qed.
End TableFacts.

(** ** The Java audit *)

Module JavaAuditProofs.
Import Py JavaAudit Spec PyFacts.

(** What [apply_overrides] leaves under each key. *)
Lemma apply_overrides_lookup (KO : odict sdict) (msgs : gmap string MessageInfo) (c : string) :
  apply_overrides KO msgs !! c =
    match od_get c (reverse KO) with
    | Some ov => override_of ov <$> msgs !! c
    | None => msgs !! c
    end.
Proof.
  revert msgs. induction KO as [|[k ov] KO IH]; intros msgs; [done|].
  unfold apply_overrides in *. simpl foldl. rewrite IH.
  rewrite reverse_cons, od_get_app. simpl.
  destruct (od_get c (reverse KO)) as [ov'|].
  - destruct (msgs !! k) as [m|] eqn:Hk; [|done].
    destruct (decide (k = c)) as [->|Hne].
    + rewrite lookup_insert_eq, Hk. done.
    + by rewrite lookup_insert_ne.
  - destruct (String.eqb_spec c k) as [->|Hne].
    + destruct (msgs !! k) as [m|] eqn:Hk; [|done].
      by rewrite lookup_insert_eq.
    + destruct (msgs !! k) as [m|] eqn:Hk; [|done].
      by rewrite lookup_insert_ne.
Qed.

(** The set of keys is kept, and entries for unknown identifiers change
    nothing. *)
Lemma apply_overrides_dom (KO : odict sdict) (msgs : gmap string MessageInfo) :
  dom (apply_overrides KO msgs) = dom msgs.
Proof.
  apply set_eq. intros c. rewrite !elem_of_dom, apply_overrides_lookup.
  destruct (od_get c (reverse KO)); [|done]. by rewrite fmap_is_Some.
Qed.

Lemma apply_overrides_skip (KO : odict sdict) (msgs : gmap string MessageInfo) :
  apply_overrides KO msgs
  = apply_overrides (filter (fun e => is_Some (msgs !! e.1)) KO) msgs.
Proof.
  assert (Hgen : ∀ msgs0 : gmap string MessageInfo, dom msgs0 = dom msgs →
            apply_overrides KO msgs0
            = apply_overrides (filter (fun e => is_Some (msgs !! e.1)) KO) msgs0);
    [|by apply Hgen].
  induction KO as [|[k ov] KO IH]; intros msgs0 Hdom; [done|].
  rewrite (filter_cons _ (k, ov) KO). simpl.
  assert (Hk : is_Some (msgs !! k) ↔ is_Some (msgs0 !! k))
    by (by rewrite <-!elem_of_dom, Hdom).
  destruct (decide (is_Some (msgs !! k))) as [Hs|Hn].
  - unfold apply_overrides in *. simpl foldl. apply IH.
    destruct (msgs0 !! k) as [m|] eqn:E; [|done].
    rewrite <-Hdom. apply dom_insert_lookup_L. by eexists.
  - unfold apply_overrides in *. simpl foldl.
    destruct (msgs0 !! k) as [m|] eqn:E; [|by apply IH].
    exfalso. apply Hn, Hk. by eexists.
Qed.

Lemma pristine_update (f : MessageInfo → MessageInfo) (msgs : gmap string MessageInfo) c :
  (∀ c m, pristine c m → pristine c (f m)) →
  map_Forall pristine msgs →
  map_Forall pristine (match msgs !! c with Some m => <[c := f m]> msgs | None => msgs end).
Proof.
  intros Hf Hall. destruct (msgs !! c) as [m|] eqn:E; [|done].
  apply map_Forall_insert_2; [|done]. apply Hf. by apply Hall.
Qed.

Lemma pristine_imap (g : string → MessageInfo → MessageInfo) (msgs : gmap string MessageInfo) :
  (∀ c m, pristine c m → pristine c (g c m)) →
  map_Forall pristine msgs →
  map_Forall pristine (map_imap (fun c m => Some (g c m)) msgs).
Proof.
  intros Hg Hall c m. rewrite map_lookup_imap.
  destruct (msgs !! c) as [m0|] eqn:E; simpl; [|done].
  intros [= <-]. apply Hg. by apply Hall.
Qed.

Lemma scan_pristine (inp : Inputs) (ids : list string) :
  map_Forall pristine (scan inp ids).
Proof.
  unfold scan.
  assert (H1 : map_Forall pristine (parse_message_ids ids)).
  { unfold parse_message_ids. apply foldl_preserves; [|apply map_Forall_empty].
    intros msgs g1 Hall. by apply map_Forall_insert_2. }
  assert (H2 : map_Forall pristine (parse_severities (in_severities inp) (parse_message_ids ids))).
  { unfold parse_severities. destruct (in_severities inp); [|done].
    apply foldl_preserves; [|done]. intros msgs [e sev] Hall.
    by apply (pristine_update (set_severity sev)). }
  set (m2 := parse_severities _ _) in *. clearbody m2.
  assert (H3 : map_Forall pristine (parse_message_texts (in_bundle inp) m2)).
  { unfold parse_message_texts. destruct (in_bundle inp); [|done].
    apply foldl_preserves; [|done]. intros msgs bl Hall.
    destruct (contains _ _); [done|]. destruct (bl_match bl) as [[g1 g2]|]; [|done].
    by apply (pristine_update (set_message_text (strip g2))). }
  set (m3 := parse_message_texts _ _) in *. clearbody m3.
  assert (H4 : map_Forall pristine (find_java_emitters (in_java inp) m3)).
  { unfold find_java_emitters. destruct (in_java inp); [|done].
    apply foldl_preserves; [|done]. intros msgs jf Hall. unfold scan_java_file.
    case_bool_decide; [done|]. destruct (jf_refs jf); [|done].
    apply foldl_preserves; [|done]. clear. intros msgs e Hall.
    unfold record_emitter. destruct (_ !! e) as [c|]; [|done].
    destruct (msgs !! c) as [m|] eqn:E; [|done].
    case_bool_decide; [done|].
    apply map_Forall_insert_2; [|done]. by apply Hall in E. }
  set (m4 := find_java_emitters _ _) in *. clearbody m4.
  assert (H5 : map_Forall pristine (find_go_implementations (in_go inp) m4)).
  { unfold find_go_implementations.
    apply (pristine_imap (fun c m => if bool_decide _ then _ else m)); [|done].
    intros c m Hm. by case_bool_decide. }
  set (m5 := find_go_implementations _ _) in *. clearbody m5.
  unfold find_bdd_coverage. destruct (in_features inp); [|done].
  apply (pristine_imap (fun c m => if bool_decide _ then _ else m)); [|done].
  intros c m Hm. by case_bool_decide.
Qed.

(** *** Counting in [generate_report] *)

Lemma bucket_cons st m l :
  bucket st (m :: l) = (if bool_decide (status m = st) then 1 else 0) + bucket st l.
Proof.
  unfold bucket. rewrite filter_cons. case_bool_decide; case_decide; done.
Qed.

Lemma bucket_perm st l l' : l ≡ₚ l' → bucket st l = bucket st l'.
Proof. intros H. unfold bucket. by rewrite H. Qed.

Lemma count_message_fields (r : AuditResult) (m : MessageInfo) :
  let r' := count_message r m in
  let hit st := if bool_decide (status m = st) then 1 else 0 in
  implemented r' = implemented r + hit "implemented"
  ∧ suppressed r' = suppressed r + hit "suppressed"
  ∧ wontfix r' = wontfix r + hit "wontfix"
  ∧ partial r' = partial r + hit "partial"
  ∧ missing r' = missing r + hit "missing"
  ∧ tested r' = tested r + (if in_bdd_tests m then 1 else 0)
  ∧ total_codes r' = total_codes r
  ∧ messages r' = messages r
  ∧ epubcheck_commit r' = epubcheck_commit r.
Proof.
  unfold count_message. simpl.
  destruct (in_bdd_tests m);
    repeat (match goal with
            | |- context [String.eqb ?a ?b] => destruct (String.eqb_spec a b)
            end);
    repeat case_bool_decide; simpl; repeat split; try lia; congruence.
Qed.

Lemma count_fold_fields (l : list MessageInfo) (r : AuditResult) :
  let r' := foldl count_message r l in
  implemented r' = implemented r + bucket "implemented" l
  ∧ suppressed r' = suppressed r + bucket "suppressed" l
  ∧ wontfix r' = wontfix r + bucket "wontfix" l
  ∧ partial r' = partial r + bucket "partial" l
  ∧ missing r' = missing r + bucket "missing" l
  ∧ tested r' = tested r + length (filter (fun m => in_bdd_tests m = true) l)
  ∧ total_codes r' = total_codes r
  ∧ messages r' = messages r
  ∧ epubcheck_commit r' = epubcheck_commit r.
Proof.
  revert r. induction l as [|m l IH]; intros r; simpl.
  - unfold bucket. simpl. repeat split; lia.
  - specialize (IH (count_message r m)). simpl in IH.
    pose proof (count_message_fields r m) as Hm. simpl in Hm.
    rewrite !bucket_cons, filter_cons.
    destruct IH as (-> & -> & -> & -> & -> & -> & -> & -> & ->).
    destruct Hm as (-> & -> & -> & -> & -> & -> & -> & -> & ->).
    destruct (in_bdd_tests m); case_decide; try done; simpl; repeat split; lia.
Qed.

(** The fields of the report in terms of the records it lists. *)
Lemma generate_report_fields (msgs : gmap string MessageInfo) (commit : string) :
  let r := generate_report msgs commit in
  messages r ≡ₚ (map_to_list msgs).*2
  ∧ total_codes r = length (messages r)
  ∧ implemented r = bucket "implemented" (messages r)
  ∧ suppressed r = bucket "suppressed" (messages r)
  ∧ wontfix r = bucket "wontfix" (messages r)
  ∧ partial r = bucket "partial" (messages r)
  ∧ missing r = bucket "missing" (messages r)
  ∧ tested r = length (filter (fun m => in_bdd_tests m = true) (messages r))
  ∧ epubcheck_commit r = commit.
Proof.
  unfold generate_report.
  set (ms := sorted code (map_to_list msgs).*2).
  pose proof (count_fold_fields ms (mkAuditResult commit (size msgs) 0 0 0 0 0 0 ms)) as H.
  simpl in H. destruct H as (-> & -> & -> & -> & -> & -> & -> & -> & ->).
  repeat split; try done.
  - apply sorted_perm.
  - unfold ms. by rewrite sorted_perm, length_fmap, length_map_to_list.
Qed.

(** Records whose status is one of the five buckets are counted once. *)
Lemma buckets_sum (l : list MessageInfo) :
  Forall (fun m => status m ∈ buckets) l →
  bucket "implemented" l + bucket "suppressed" l + bucket "wontfix" l
  + bucket "partial" l + bucket "missing" l = length l.
Proof.
  induction 1 as [|m l Hm _ IH]; [done|].
  rewrite !bucket_cons. simpl length. rewrite <-IH.
  unfold buckets in Hm. rewrite !elem_of_cons, elem_of_nil in Hm.
  destruct Hm as [E|[E|[E|[E|[E|[]]]]]]; rewrite E; simpl; lia.
Qed.

(** Records whose status is none of the five buckets are counted nowhere. *)
Lemma buckets_sum_any (l : list MessageInfo) :
  bucket "implemented" l + bucket "suppressed" l + bucket "wontfix" l
  + bucket "partial" l + bucket "missing" l
  + length (filter (fun m => status m ∉ buckets) l) = length l.
Proof.
  induction l as [|m l IH]; [done|].
  rewrite !bucket_cons, filter_cons. simpl length. rewrite <-IH.
  destruct (decide (status m ∉ buckets)) as [Hout|Hin].
  - unfold buckets in Hout. rewrite !not_elem_of_cons in Hout.
    destruct Hout as (? & ? & ? & ? & ? & _).
    rewrite !bool_decide_eq_false_2 by done. simpl. lia.
  - apply dec_stable in Hin. unfold buckets in Hin.
    rewrite !elem_of_cons, elem_of_nil in Hin.
    destruct Hin as [E|[E|[E|[E|[E|[]]]]]]; rewrite E; simpl; lia.
Qed.

Lemma generate_report_uncounted (msgs : gmap string MessageInfo) (commit : string) :
  let r := generate_report msgs commit in
  implemented r + suppressed r + wontfix r + partial r + missing r
  + length (filter (fun m => status m ∉ buckets) (messages r)) = total_codes r.
Proof.
  intros r.
  destruct (generate_report_fields msgs commit) as (_ & Ht & Hi & Hs & Hw & Hp & Hm & _).
  fold r in Ht, Hi, Hs, Hw, Hp, Hm. rewrite Ht, Hi, Hs, Hw, Hp, Hm.
  apply buckets_sum_any.
Qed.


(** The records after the overrides are still stored under their code. *)
Lemma collect_lookup (KO : odict sdict) (inp : Inputs) (ids : list string) c m :
  collect KO inp ids !! c = Some m →
  ∃ m0, scan inp ids !! c = Some m0 ∧ pristine c m0
        ∧ m = match od_get c (reverse KO) with
              | Some ov => override_of ov m0
              | None => m0
              end.
Proof.
  unfold collect. rewrite apply_overrides_lookup. intros H.
  destruct (scan inp ids !! c) as [m0|] eqn:E.
  - exists m0. split; [done|]. split; [by apply (scan_pristine inp ids)|].
    destruct (od_get c (reverse KO)); simpl in H; congruence.
  - destruct (od_get c (reverse KO)); simpl in H; congruence.
Qed.

Lemma status_pristine c m :
  pristine c m →
  status m = if String.eqb (severity m) "SUPPRESSED" then "suppressed"
             else if in_go_code m then "implemented" else "missing".
Proof. intros (_ & Hst & _). unfold status. by rewrite Hst. Qed.

Lemma status_override ov m :
  get_default ov "status" ≠ "" →
  status (override_of ov m) = get_default ov "status".
Proof.
  intros Hne. unfold status, override_of. simpl. unfold truthy.
  by destruct (String.eqb_spec (get_default ov "status") "").
Qed.

(** C1.  For every check identifier of a run, the reconciled status follows
    the precedence of [MessageInfo.status]: when the override table has an
    entry for the identifier, with a status out of the documented set, that
    status is the result; without an entry a severity of [SUPPRESSED] gives
    [suppressed], even for a code found in the validator source; otherwise a
    code found in the validator source is [implemented], and any other code
    is [missing]. *)
Theorem status_precedence (KO : odict sdict) (inp : Inputs) (ids : list string)
    (c : string) (m : MessageInfo) :
  NoDup KO.*1 →
  collect KO inp ids !! c = Some m →
  (∀ ov st, (c, ov) ∈ KO → ov !! "status" = Some st → st ∈ override_statuses →
            status m = st)
  ∧ (c ∉ KO.*1 → severity m = "SUPPRESSED" → status m = "suppressed")
  ∧ (c ∉ KO.*1 → severity m ≠ "SUPPRESSED" → in_go_code m = true →
     status m = "implemented")
  ∧ (c ∉ KO.*1 → severity m ≠ "SUPPRESSED" → in_go_code m = false →
     status m = "missing").
Proof.
  intros Hnd Hm. apply collect_lookup in Hm as (m0 & _ & Hp & ->).
  rewrite od_get_reverse by done.
  assert (Hauto : c ∉ KO.*1 →
            status match od_get c KO with Some ov => override_of ov m0 | None => m0 end
            = (if String.eqb (severity m0) "SUPPRESSED" then "suppressed"
               else if in_go_code m0 then "implemented" else "missing")
            ∧ match od_get c KO with Some ov => override_of ov m0 | None => m0 end = m0).
  { intros Hc. apply od_get_None in Hc. rewrite Hc. split; [|done].
    by apply (status_pristine c). }
  split; [|split; [|split]].
  - intros ov st Hin Hst Hdoc. rewrite (od_get_NoDup c ov KO Hnd Hin).
    assert (Hget : get_default ov "status" = st) by (unfold get_default; by rewrite Hst).
    rewrite status_override; [done|]. rewrite Hget.
    unfold override_statuses in Hdoc. rewrite !elem_of_cons, elem_of_nil in Hdoc.
    intros Hempty. rewrite Hempty in Hdoc.
    destruct Hdoc as [H|[H|[H|[H|[]]]]]; discriminate H.
  - intros Hc. destruct (Hauto Hc) as [-> ->]. intros ->. done.
  - intros Hc. destruct (Hauto Hc) as [-> ->]. intros Hs ->.
    by destruct (String.eqb_spec (severity m0) "SUPPRESSED").
  - intros Hc. destruct (Hauto Hc) as [-> ->]. intros Hs ->.
    by destruct (String.eqb_spec (severity m0) "SUPPRESSED").
Qed.

Lemma status_precedence_witness :
  status (mkMessageInfo "ACC-001" "" "" [] "ACC" false false
            "implemented" "accessibility metadata check")
  = "implemented".
Proof.
  refine (proj1 (status_precedence JavaTable.KNOWN_OVERRIDES Samples.bare_snapshot
                   ["ACC_001"] "ACC-001" _ _ _)
                ({["status" := "implemented"; "go" := "accessibility.go";
                   "note" := "accessibility metadata check"]} : gmap string string)
                "implemented" _ _ _).
  - compute_done.
  - vm_compute. reflexivity.
  - compute_done.
  - vm_compute. reflexivity.
  - compute_done.
Defined.

Lemma od_get_elem_reverse {V} (k : string) (v : V) (d : odict V) :
  od_get k (reverse d) = Some v → (k, v) ∈ d.
Proof. intros H. apply elem_of_reverse. by apply od_get_elem. Qed.

Lemma collect_coded (KO : odict sdict) (inp : Inputs) (ids : list string) :
  map_Forall (fun c m => code m = c) (collect KO inp ids).
Proof.
  intros c m Hm. apply collect_lookup in Hm as (m0 & _ & (Hc & _) & ->).
  by destruct (od_get c (reverse KO)).
Qed.

Lemma values_codes (msgs : gmap string MessageInfo) :
  map_Forall (fun c m => code m = c) msgs →
  code <$> (map_to_list msgs).*2 = (map_to_list msgs).*1.
Proof.
  intros Hall. rewrite <-list_fmap_compose. apply list_fmap_ext.
  intros i [c m] Hi. simpl. apply Hall. apply elem_of_map_to_list.
  apply list_elem_of_lookup. by exists i.
Qed.

(** C2, as stated.  An override entry with the documented status [note]
    gives its record the status [note], which is none of the five buckets:
    the report counts one code and the five counters add up to zero. *)
Lemma note_override_uncounted :
  let msgs := collect Samples.note_override Samples.bare_snapshot ["ACC_001"] in
  let r := generate_report msgs "0f3c" in
  Forall (fun e => get_default e.2 "status" ∈ override_statuses) Samples.note_override
  ∧ status <$> msgs !! "ACC-001" = Some "note"
  ∧ total_codes r = 1
  ∧ implemented r + suppressed r + wontfix r + partial r + missing r = 0.
Proof.
  split; [|by vm_compute].
  constructor; [compute_done|constructor].
Qed.

(** C2, amended.  With override statuses drawn from [implemented],
    [partial] and [wontfix], every check identifier of a run has exactly one
    record in the report, the status of every record is one of the five
    buckets, and the five counters add up to [total_codes]. *)
Theorem buckets_partition (KO : odict sdict) (inp : Inputs) (ids : list string)
    (commit : string) :
  Forall (fun e => get_default e.2 "status" ∈ ["implemented"; "partial"; "wontfix"]) KO →
  let msgs := collect KO inp ids in
  let r := generate_report msgs commit in
  NoDup (code <$> messages r)
  ∧ (∀ c, is_Some (msgs !! c) ↔ c ∈ code <$> messages r)
  ∧ Forall (fun m => status m ∈ buckets) (messages r)
  ∧ total_codes r = length (messages r)
  ∧ implemented r + suppressed r + wontfix r + partial r + missing r = total_codes r.
Proof.
  intros HKO msgs r.
  destruct (generate_report_fields msgs commit)
    as (Hperm & Htot & Hi & Hs & Hw & Hp & Hm & _).
  fold r in Hperm, Htot, Hi, Hs, Hw, Hp, Hm.
  assert (Hcodes : code <$> messages r ≡ₚ (map_to_list msgs).*1).
  { rewrite Hperm. by rewrite (values_codes msgs (collect_coded KO inp ids)). }
  assert (Hall : Forall (fun m => status m ∈ buckets) (messages r)).
  { rewrite Hperm. apply Forall_forall. intros m Hin.
    apply list_elem_of_fmap in Hin as ([c m'] & -> & Hin). simpl.
    apply elem_of_map_to_list in Hin.
    apply collect_lookup in Hin as (m0 & _ & Hpr & ->).
    destruct (od_get c (reverse KO)) as [ov|] eqn:E.
    - apply od_get_elem_reverse in E.
      rewrite Forall_forall in HKO. specialize (HKO _ E). simpl in HKO.
      rewrite status_override.
      + unfold buckets. rewrite !elem_of_cons, elem_of_nil in HKO.
        destruct HKO as [->|[->|[->|[]]]]; compute_done.
      + intros Hempty. rewrite Hempty in HKO.
        rewrite !elem_of_cons, elem_of_nil in HKO.
        destruct HKO as [H|[H|[H|[]]]]; discriminate H.
    - rewrite (status_pristine c m0 Hpr).
      destruct (String.eqb _ _); [compute_done|].
      destruct (in_go_code m0); compute_done. }
  split; [|split; [|split; [|split]]]; try done.
  - rewrite Hcodes. apply NoDup_fst_map_to_list.
  - intros c. rewrite Hcodes. rewrite <-elem_of_dom. symmetry.
    rewrite elem_of_dom. unfold is_Some.
    rewrite list_elem_of_fmap. split.
    + intros ([c' m] & -> & Hin). exists m. by apply elem_of_map_to_list.
    + intros [m Hin]. exists (c, m). split; [done|]. by apply elem_of_map_to_list.
  - rewrite Hi, Hs, Hw, Hp, Hm, Htot. by apply buckets_sum.
Qed.

Lemma buckets_partition_witness :
  let r := generate_report
             (collect JavaTable.KNOWN_OVERRIDES Samples.bare_snapshot ["ACC_001"]) "0f3c" in
  implemented r + suppressed r + wontfix r + partial r + missing r = total_codes r.
Proof.
  refine (proj2 (proj2 (proj2 (proj2
    (buckets_partition JavaTable.KNOWN_OVERRIDES Samples.bare_snapshot ["ACC_001"]
       "0f3c" _))))).
  compute_done.
Defined.

(** C10.  [apply_overrides] keeps the set of check identifiers; entries
    for identifiers outside that set can be dropped from the table without
    changing the result (a single such entry leaves the records as they
    are); and a record that is present keeps its code, severity, message
    text, origin locations, category and both evidence flags. *)
Theorem apply_overrides_frame (KO : odict sdict) (msgs : gmap string MessageInfo) :
  dom (apply_overrides KO msgs) = dom msgs
  ∧ apply_overrides KO msgs
    = apply_overrides (filter (fun e => is_Some (msgs !! e.1)) KO) msgs
  ∧ (∀ c ov, msgs !! c = None → apply_overrides [(c, ov)] msgs = msgs)
  ∧ (∀ c m, msgs !! c = Some m →
       ∃ m', apply_overrides KO msgs !! c = Some m' ∧ same_evidence m m').
Proof.
  split; [apply apply_overrides_dom|]. split; [apply apply_overrides_skip|]. split.
  - intros c ov Hc. unfold apply_overrides. simpl. by rewrite Hc.
  - intros c m Hc. rewrite apply_overrides_lookup, Hc.
    destruct (od_get c (reverse KO)) as [ov|]; simpl; eexists; (split; [done|]);
      by repeat split.
Qed.

Lemma apply_overrides_frame_witness :
  apply_overrides [("OPF-999", ∅)] (parse_message_ids ["ACC_001"])
  = parse_message_ids ["ACC_001"].
Proof.
  refine (proj1 (proj2 (proj2
    (apply_overrides_frame [] (parse_message_ids ["ACC_001"]))))
    "OPF-999" ∅ _).
  vm_compute. reflexivity.
Defined.

Lemma text_report_head (r : AuditResult) (summary_only : bool) :
  ∃ rest, (print_text_report r summary_only).1 = text_head r ++ rest.
Proof.
  unfold print_text_report.
  destruct (foldl _ _ _); [destruct summary_only|]; cbn [fst]; eauto.
Qed.

Lemma text_report_sections (r : AuditResult) :
  (print_text_report r false).2 = None →
  ∃ pre, (print_text_report r false).1
         = pre ++ missing_section r ++ partial_section r ++ untested_section r.
Proof.
  unfold print_text_report. destruct (foldl _ _ _) as [cats|]; [|done].
  intros _. cbn [fst]. exists (text_head r ++ category_table cats).
  by rewrite <-app_assoc.
Qed.

(** C6.  For every reconciled dataset, each of the seven aggregate lines of
    the text report is its label followed by the number the JSON summary
    holds under the corresponding key; when the full text report is printed,
    the headers of the missing and partial sections repeat the JSON counts
    as well. *)
Theorem report_counts_agree (msgs : gmap string MessageInfo) (commit : string)
    (summary_only : bool) :
  let r := generate_report msgs commit in
  let j := print_json_report r in
  let text := print_text_report r summary_only in
  (fun '(label, k) => (fun n => label +:+ str_of_nat n) <$> summary_count k j)
    <$> count_labels
  = Some <$> firstn 7 (skipn 6 text.1)
  ∧ (summary_only = false → text.2 = None →
     ∀ n, summary_count "missing" j = Some n → 0 < n →
          "MISSING CHECKS (" +:+ str_of_nat n +:+ " gaps to evaluate)" ∈ text.1)
  ∧ (summary_only = false → text.2 = None →
     ∀ n, summary_count "partial" j = Some n → 0 < n →
          "PARTIAL CHECKS (" +:+ str_of_nat n +:+ " need completion)" ∈ text.1).
Proof.
  intros r j text. split; [|split].
  - destruct (text_report_head r summary_only) as [rest Hrest].
    unfold text. rewrite Hrest. reflexivity.
  - intros -> Hok n [= <-] Hpos.
    destruct (text_report_sections r Hok) as [pre Hpre]. unfold text. rewrite Hpre.
    destruct (generate_report_fields msgs commit) as (_ & _ & _ & _ & _ & _ & Hm & _).
    fold r in Hm. rewrite Hm in *. unfold bucket in *.
    apply elem_of_app. right. apply elem_of_app. left.
    unfold missing_section.
    destruct (filter_length_pos _ _ Hpos) as (x & xs & E). rewrite E.
    right. left.
  - intros -> Hok n [= <-] Hpos.
    destruct (text_report_sections r Hok) as [pre Hpre]. unfold text. rewrite Hpre.
    destruct (generate_report_fields msgs commit) as (_ & _ & _ & _ & _ & Hp & _).
    fold r in Hp. rewrite Hp in *. unfold bucket in *.
    apply elem_of_app. right. apply elem_of_app. right. apply elem_of_app. left.
    unfold partial_section.
    destruct (filter_length_pos _ _ Hpos) as (x & xs & E). rewrite E.
    right. left.
Qed.

Lemma report_counts_agree_witness :
  "MISSING CHECKS (1 gaps to evaluate)"
  ∈ (print_text_report
       (generate_report
          (collect JavaTable.KNOWN_OVERRIDES Samples.opf_snapshot ["OPF_001"]) "0f3c")
       false).1.
Proof.
  refine (proj1 (proj2 (report_counts_agree
                          (collect JavaTable.KNOWN_OVERRIDES Samples.opf_snapshot ["OPF_001"])
                          "0f3c" false))
                _ _ 1 _ _).
  - reflexivity.
  - vm_compute. reflexivity.
  - vm_compute. reflexivity.
  - lia.
Defined.

(** C3, at a failing input.  On a snapshot whose only check is missing,
    [main] of [java-audit.py] counts one missing check and still ends with
    exit status 0, whatever the flags. *)
Theorem java_main_exit_with_missing :
  missing (generate_report
             (collect JavaTable.KNOWN_OVERRIDES Samples.opf_snapshot ["OPF_001"]) "0f3c") = 1
  ∧ ∀ args, exit_status (main JavaTable.KNOWN_OVERRIDES args Samples.opf_snapshot) = 0.
Proof.
  split; [by vm_compute|]. intros [[] s []]; by vm_compute.
Qed.

(** A run that reads [MessageId.java] and prints JSON always ends with
    status 0. *)
Lemma java_main_json_exit (KO : odict sdict) (args : Args) (inp : Inputs) ids :
  in_message_ids inp = Some ids → arg_json args = true →
  exit_status (main KO args inp) = 0.
Proof. intros Hids Hjson. unfold main. by rewrite Hids, Hjson. Qed.

(** C4, at a failing input.  The same snapshot, with its two source files
    yielded by the directory walk in the one or the other order, gives two
    different JSON reports: the origin locations of [OPF-001] come out as
    [Foo, Bar] and as [Bar, Foo]. *)
Theorem json_output_follows_scan_order :
  let inp1 := Samples.snapshot_with [Samples.foo_java; Samples.bar_java] in
  let inp2 := Samples.snapshot_with [Samples.bar_java; Samples.foo_java] in
  [Samples.foo_java; Samples.bar_java] ≡ₚ [Samples.bar_java; Samples.foo_java]
  ∧ java_files <$> collect JavaTable.KNOWN_OVERRIDES inp1 ["OPF_001"] !! "OPF-001"
    = Some ["Foo"; "Bar"]
  ∧ java_files <$> collect JavaTable.KNOWN_OVERRIDES inp2 ["OPF_001"] !! "OPF-001"
    = Some ["Bar"; "Foo"]
  ∧ out (main JavaTable.KNOWN_OVERRIDES Samples.json_args inp1)
    ≠ out (main JavaTable.KNOWN_OVERRIDES Samples.json_args inp2).
Proof.
  split; [apply Permutation_swap|]. split; [by vm_compute|]. split; [by vm_compute|].
  vm_compute. intros H. discriminate H.
Qed.
End JavaAuditProofs.

(** ** The order of the source scan *)

Module ScanOrderProofs.
Import Py JavaAudit Spec PyFacts.


Lemma grows_refl c (S : string → Prop) msgs : (∀ x, ¬ S x) → grows c S msgs msgs.
Proof.
  intros HS. unfold grows. destruct (msgs !! c) as [m|]; [|done].
  exists m. repeat split; try done; [by left|]. intros [?|?]; [done|]. by destruct (HS x).
Qed.

Lemma grows_trans c (S1 S2 S : string → Prop) m1 m2 m3 :
  (∀ x, S x ↔ S1 x ∨ S2 x) → grows c S1 m1 m2 → grows c S2 m2 m3 → grows c S m1 m3.
Proof.
  unfold grows. intros HS H12 H23. destruct (m1 !! c) as [a|].
  - destruct H12 as (b & Hb & Hf & Hnd & Hin). rewrite Hb in H23.
    destruct H23 as (d & Hd & Hf' & Hnd' & Hin'). exists d.
    split; [done|]. split; [congruence|]. split; [auto|].
    intros x. rewrite Hin', Hin, HS. tauto.
  - by rewrite H12 in H23.
Qed.

(** One reference. *)
Lemma record_emitter_grows index stem msgs e c :
  grows c (fun x => x = stem ∧ index !! e = Some c) msgs (record_emitter index stem msgs e).
Proof.
  unfold grows, record_emitter.
  destruct (index !! e) as [c'|] eqn:Hidx.
  - destruct (msgs !! c') as [m0|] eqn:Hc'.
    + case_bool_decide as Hin.
      * destruct (msgs !! c) as [m|] eqn:Hc; [|done].
        exists m. repeat split; try done; [by left|].
        intros [?|[-> [= ->]]]; [done|]. by rewrite Hc' in Hc; injection Hc as <-.
      * destruct (decide (c' = c)) as [->|Hne].
        -- rewrite Hc'. rewrite lookup_insert_eq. eexists. split; [done|].
           split; [done|]. split.
           ++ intros Hnd. simpl. apply NoDup_app. repeat split; [done| |apply NoDup_singleton].
              intros x Hx ->%list_elem_of_singleton. done.
           ++ intros x. simpl. rewrite elem_of_app, list_elem_of_singleton.
              split; (intros [?|?]; [by left|right]); [done|tauto].
        -- rewrite lookup_insert_ne by done.
           destruct (msgs !! c) as [m|]; [|done].
           exists m. repeat split; try done; [by left|].
           intros [?|[_ [= ?]]]; done.
    + destruct (msgs !! c) as [m|] eqn:Hc; [|done].
      exists m. repeat split; try done; [by left|].
      intros [?|[_ [= ->]]]; [done|]. congruence.
  - destruct (msgs !! c) as [m|]; [|done].
    exists m. repeat split; try done; [by left|]. intros [?|[_ ?]]; done.
Qed.

(** The references of one file. *)
Lemma scan_refs_grows index stem refs msgs c :
  grows c (fun x => x = stem ∧ ∃ e, e ∈ refs ∧ index !! e = Some c)
        msgs (foldl (record_emitter index stem) msgs refs).
Proof.
  revert msgs. induction refs as [|e refs IH]; intros msgs; simpl.
  - apply grows_refl. intros x (_ & e & He & _). by apply elem_of_nil in He.
  - eapply grows_trans; [|apply record_emitter_grows|apply IH].
    intros x. split.
    + intros (-> & e' & [->|He']%elem_of_cons & Hidx); [by left|right; eauto].
    + intros [[-> Hidx]|(-> & e' & He' & Hidx)]; (split; [done|]).
      * exists e. split; [left|done].
      * exists e'. split; [by right|done].
Qed.

Lemma scan_java_file_grows index msgs jf c :
  grows c (fun x => x = jf_stem jf ∧ emits index c jf) msgs (scan_java_file index msgs jf).
Proof.
  unfold scan_java_file, emits. case_bool_decide as Hskip.
  - apply grows_refl. intros x (_ & Hno & _). exact (Hno Hskip).
  - destruct (jf_refs jf) as [refs|] eqn:Hrefs.
    + eapply grows_trans; [|apply scan_refs_grows|apply (grows_refl c (fun _ => False))];
        [|by intros ? []].
      intros x. split.
      * intros (-> & _ & refs' & e & [= <-] & He & Hidx). left. eauto.
      * intros [(-> & e & He & Hidx)|[]]. split; [done|]. split; [done|]. eauto.
    + apply grows_refl. intros x (_ & _ & refs & e & [=] & _).
Qed.

Lemma scan_java_files_grows index files msgs c :
  grows c (fun x => ∃ jf, jf ∈ files ∧ x = jf_stem jf ∧ emits index c jf)
        msgs (foldl (scan_java_file index) msgs files).
Proof.
  revert msgs. induction files as [|jf files IH]; intros msgs; simpl.
  - apply grows_refl. intros x (jf & Hjf & _). by apply elem_of_nil in Hjf.
  - eapply grows_trans; [|apply scan_java_file_grows|apply IH].
    intros x. split.
    + intros (jf' & [->|Hjf]%elem_of_cons & Hx & He); [by left|right; eauto].
    + intros [[-> He]|(jf' & Hjf & Hx & He)].
      * exists jf. split; [left|done].
      * exists jf'. split; [by right|done].
Qed.

(** Visiting the same files in another order changes only the order of
    the origin locations. *)
Lemma scan_order_permutes (files1 files2 : list JavaFile)
    (msgs : gmap string MessageInfo) (c : string) :
  files1 ≡ₚ files2 →
  map_Forall (fun _ m => NoDup (java_files m)) msgs →
  match find_java_emitters (Some files1) msgs !! c,
        find_java_emitters (Some files2) msgs !! c with
  | Some m1, Some m2 =>
      set_java_files [] m1 = set_java_files [] m2 ∧ java_files m1 ≡ₚ java_files m2
  | None, None => True
  | _, _ => False
  end.
Proof.
  intros Hperm Hnd.
  pose proof (scan_java_files_grows (enum_to_code msgs) files1 msgs c) as H1.
  pose proof (scan_java_files_grows (enum_to_code msgs) files2 msgs c) as H2.
  change (foldl (scan_java_file (enum_to_code msgs)) msgs files1)
    with (find_java_emitters (Some files1) msgs) in H1.
  change (foldl (scan_java_file (enum_to_code msgs)) msgs files2)
    with (find_java_emitters (Some files2) msgs) in H2.
  unfold grows in H1, H2. destruct (msgs !! c) as [m|] eqn:Hc.
  - destruct H1 as (m1 & -> & Hf1 & Hnd1 & Hin1), H2 as (m2 & -> & Hf2 & Hnd2 & Hin2).
    split; [congruence|]. specialize (Hnd c m Hc). simpl in Hnd.
    apply NoDup_Permutation; [auto|auto|].
    intros x. rewrite Hin1, Hin2. split; (intros [?|(jf & Hjf & ?)]; [by left|right]);
      exists jf; (split; [|done]); [by rewrite <-Hperm|by rewrite Hperm].
  - by rewrite H1, H2.
Qed.

End ScanOrderProofs.

(** ** Identifier normalisation *)

Module NormalizationProofs.
Import Py JavaAudit Spec PyFacts.

Lemma append_cons a (s t : string) : String a s +:+ t = String a (s +:+ t).
Proof. reflexivity. Qed.

Lemma append_nil (t : string) : "" +:+ t = t.
Proof. reflexivity. Qed.

Lemma append_assoc (s1 s2 s3 : string) : (s1 +:+ s2) +:+ s3 = s1 +:+ (s2 +:+ s3).
Proof.
  induction s1 as [|a s1 IH]; [done|]. rewrite !append_cons. by f_equal.
Qed.

Lemma replace_char_app c r s1 s2 :
  replace_char c r (s1 +:+ s2) = replace_char c r s1 +:+ replace_char c r s2.
Proof.
  induction s1 as [|a s1 IH]; [done|]. rewrite append_cons. simpl.
  destruct (Ascii.eqb a c); rewrite IH; [by rewrite append_assoc|done].
Qed.

(** A string without the character is left alone. *)
Lemma replace_char_absent (p : ascii → bool) c r s :
  p c = false → all_chars p s = true → replace_char c r s = s.
Proof.
  intros Hc. induction s as [|a s IH]; simpl; [done|].
  intros [Ha Hs]%andb_prop.
  destruct (Ascii.eqb_spec a c) as [->|_]; [congruence|]. by rewrite IH.
Qed.

Lemma split_head_app (p : ascii → bool) c s1 s2 :
  p c = false → all_chars p s1 = true → split_head c (s1 +:+ String c s2) = s1.
Proof.
  intros Hc. induction s1 as [|a s1 IH]; rewrite ?append_cons, ?append_nil; simpl.
  - by rewrite Ascii.eqb_refl.
  - intros [Ha Hs]%andb_prop.
    destruct (Ascii.eqb_spec a c) as [->|_]; [congruence|]. by rewrite IH.
Qed.

Lemma span_app (p : ascii → bool) a s1 s2 :
  p a = false → all_chars p s1 = true →
  span p (s1 +:+ String a s2) = (s1, String a s2).
Proof.
  intros Ha. induction s1 as [|b s1 IH]; rewrite ?append_cons, ?append_nil; simpl.
  - by rewrite Ha.
  - intros [Hb Hs]%andb_prop. rewrite Hb, IH; done.
Qed.

Lemma all_chars_weaken (p q : ascii → bool) s :
  (∀ a, p a = true → q a = true) → all_chars p s = true → all_chars q s = true.
Proof.
  intros Hpq. induction s as [|a s IH]; simpl; [done|].
  intros [Ha Hs]%andb_prop. by rewrite (Hpq a Ha), IH.
Qed.

Lemma all_chars_app p s1 s2 :
  all_chars p (s1 +:+ s2) = all_chars p s1 && all_chars p s2.
Proof.
  induction s1 as [|a s1 IH]; [done|]. rewrite append_cons. simpl.
  by rewrite IH, andb_assoc.
Qed.

Lemma canonical_alnum pre num suf :
  canonical_parts pre num suf →
  all_chars alnum pre = true ∧ all_chars alnum (num +:+ suf) = true.
Proof.
  intros (Hp & _ & Hn & _ & Hs & _). split.
  - apply (all_chars_weaken is_upper); [|done]. intros a Ha. unfold alnum. by rewrite Ha.
  - rewrite all_chars_app. apply andb_true_intro. split.
    + apply (all_chars_weaken is_digit); [|done]. intros a Ha. unfold alnum.
      rewrite Ha. by destruct (is_upper a).
    + apply (all_chars_weaken is_lower); [|done]. intros a Ha. unfold alnum.
      rewrite Ha. by destruct (is_upper a), (is_digit a).
Qed.

Lemma alnum_separators : alnum "_" = false ∧ alnum "-" = false.
Proof. by vm_compute. Qed.

(** Replacing one separator by the other between two alphanumeric parts. *)
Lemma replace_separator (c : ascii) (r : string) (pre rest : string) :
  alnum c = false → all_chars alnum pre = true → all_chars alnum rest = true →
  replace_char c r (pre +:+ String c rest) = pre +:+ r +:+ rest
  ∧ ∀ d, alnum d = false → d ≠ c →
         replace_char c r (pre +:+ String d rest) = pre +:+ String d rest.
Proof.
  intros Hc Hpre Hrest. split; [|intros d Hd Hdc]; rewrite replace_char_app;
    rewrite (replace_char_absent alnum c r pre) by done; f_equal; simpl.
  - by rewrite Ascii.eqb_refl, (replace_char_absent alnum).
  - destruct (Ascii.eqb_spec d c); [done|]. by rewrite (replace_char_absent alnum).
Qed.

(** C5.  For every identifier of the canonical shape, the underscore form
    and the hyphen form are normalised to the same hyphenated key, by
    [parse_message_ids] and by the conversion of [parse_severities] alike;
    the key is turned back into the enum name by the emitter scan; and the
    category is the alphabetic prefix. *)
Theorem id_normalization (pre num suf : string) :
  canonical_parts pre num suf →
  let underscore := pre +:+ "_" +:+ num +:+ suf in
  let hyphen := pre +:+ "-" +:+ num +:+ suf in
  normalize_code underscore = hyphen
  ∧ normalize_code hyphen = hyphen
  ∧ code_of_enum_name underscore = hyphen
  ∧ replace_char "-" "_" hyphen = underscore
  ∧ category_of hyphen = pre
  ∧ parse_message_ids [underscore] = parse_message_ids [hyphen]
  ∧ parse_message_ids [hyphen] !! hyphen = Some (new_message hyphen pre).
Proof.
  intros Hc underscore hyphen.
  destruct (canonical_alnum pre num suf Hc) as [Hpre Hrest].
  destruct Hc as (Hup & Hlen & Hdig & Hnum & _ & _).
  destruct alnum_separators as [Hus Hhy].
  change underscore with (pre +:+ String "_" (num +:+ suf)).
  change hyphen with (pre +:+ String "-" (num +:+ suf)).
  destruct (replace_separator "_" "-" pre (num +:+ suf) Hus Hpre Hrest) as [Hu1 Hu2].
  destruct (replace_separator "-" "_" pre (num +:+ suf) Hhy Hpre Hrest) as [Hh1 _].
  assert (Hu : normalize_code (pre +:+ String "_" (num +:+ suf))
               = pre +:+ String "-" (num +:+ suf)) by apply Hu1.
  assert (Hh : normalize_code (pre +:+ String "-" (num +:+ suf))
               = pre +:+ String "-" (num +:+ suf)) by (by apply Hu2).
  assert (Hcat : category_of (pre +:+ String "-" (num +:+ suf)) = pre)
    by (by apply (split_head_app alnum)).
  split; [done|]. split; [done|]. split; [|split; [|split; [done|split]]].
  - unfold code_of_enum_name. rewrite (span_app is_upper) by done.
    destruct pre as [|a pre]; [simpl in Hlen; lia|].
    destruct num as [|d num]; [done|]. simpl in Hdig.
    apply andb_prop in Hdig as [Hd _]. rewrite append_cons. by rewrite Hd.
  - apply Hh1.
  - unfold parse_message_ids. simpl. by rewrite Hu, Hh.
  - unfold parse_message_ids. simpl. by rewrite Hh, Hcat, lookup_insert_eq.
Qed.

Lemma id_normalization_witness :
  normalize_code "ACC_001" = "ACC-001" ∧ normalize_code "ACC-001" = "ACC-001"
  ∧ category_of "ACC-001" = "ACC".
Proof.
  pose proof (id_normalization "ACC" "001" "") as H.
  assert (Hc : canonical_parts "ACC" "001" "").
  { unfold canonical_parts. simpl. repeat split; lia. }
  destruct (H Hc) as (H1 & H2 & _ & _ & H5 & _).
  exact (conj H1 (conj H2 H5)).
Defined.
End NormalizationProofs.

(** ** The Schematron audit *)

Module SchematronAuditProofs.
Import Py SchematronAudit Spec PyFacts.

(** One iteration of the loop. *)
Lemma audit_check_spec KC seen r c seen' r' :
  audit_check KC (seen, r) c = Ok (seen', r') →
  total_checks r' = S (total_checks r)
  ∧ missing r' = missing r + (if decide (is_missing KC c) then 1 else 0)
  ∧ partial r' = partial r + (if decide (is_partial KC c) then 1 else 0)
  ∧ implemented r' = implemented r + (if decide (is_other KC c) then 1 else 0)
  ∧ missing_checks r' = missing_checks r ++ filter (is_missing KC) [c]
  ∧ partial_checks r' = partial_checks r ++ filter (is_partial KC) [c].
Proof.
  intros H.
  assert (Hcases :
    match od_get (pattern_id c) KC with
    | None => is_missing KC c ∧ ¬ is_partial KC c ∧ ¬ is_other KC c
              ∧ r' = mkAuditResult (total_patterns r') (S (total_checks r))
                       (implemented r) (partial r) (S (missing r))
                       (missing_checks r ++ [c]) (partial_checks r)
    | Some known =>
        if bool_decide (known !! "status" = Some "partial")
        then ¬ is_missing KC c ∧ is_partial KC c ∧ ¬ is_other KC c
             ∧ r' = mkAuditResult (total_patterns r') (S (total_checks r))
                      (implemented r) (S (partial r)) (missing r)
                      (missing_checks r) (partial_checks r ++ [c])
        else ¬ is_missing KC c ∧ ¬ is_partial KC c ∧ is_other KC c
             ∧ r' = mkAuditResult (total_patterns r') (S (total_checks r))
                      (S (implemented r)) (partial r) (missing r)
                      (missing_checks r) (partial_checks r)
    end).
  { unfold audit_check in H. unfold is_missing, is_partial, is_other, registry_status.
    destruct (od_get (pattern_id c) KC) as [known|]; simpl.
    - assert (Hst : ∃ st, known !! "status" = Some st).
      { destruct (known !! "status") eqn:E; [eauto|].
        destruct (bool_decide (pattern_id c ∈ seen)); simpl in H;
          unfold getitem in H; by rewrite E in H. }
      destruct Hst as [st Hst].
      assert (H' : (if String.eqb st "partial"
                    then r' = mkAuditResult (total_patterns r') (S (total_checks r))
                                (implemented r) (S (partial r)) (missing r)
                                (missing_checks r) (partial_checks r ++ [c])
                    else r' = mkAuditResult (total_patterns r') (S (total_checks r))
                                (S (implemented r)) (partial r) (missing r)
                                (missing_checks r) (partial_checks r))).
      { destruct (bool_decide (pattern_id c ∈ seen)); simpl in H;
          unfold getitem in H; rewrite Hst in H; simpl in H;
          destruct (String.eqb st "partial"); by injection H as <- <-. }
      rewrite Hst. destruct (String.eqb_spec st "partial") as [->|Hne].
      + rewrite bool_decide_eq_true_2 by done. repeat split; try done.
        intros [_ Hno]. by apply Hno.
      + rewrite bool_decide_eq_false_2 by congruence.
        repeat split; try done; try congruence.
    - assert (H' : r' = mkAuditResult (total_patterns r') (S (total_checks r))
                          (implemented r) (partial r) (S (missing r))
                          (missing_checks r ++ [c]) (partial_checks r)).
      { destruct (bool_decide (pattern_id c ∈ seen)); simpl in H;
          by injection H as <- <-. }
      repeat split; try done. by intros [[? ?] _]. }
  destruct (od_get (pattern_id c) KC) as [known|];
    [destruct (bool_decide _)|];
    destruct Hcases as (Hm & Hp & Ho & ->); simpl;
    rewrite !filter_cons, !filter_nil;
    repeat case_decide; try done; simpl; rewrite ?app_nil_r;
    repeat split; lia.
Qed.

Lemma audit_loop_cons KC st c checks :
  audit_loop KC st (c :: checks)
  = match audit_check KC st c with
    | Ok st' => audit_loop KC st' checks
    | Raise e => Raise e
    end.
Proof. reflexivity. Qed.

Lemma audit_loop_spec KC checks seen r seen' r' :
  audit_loop KC (seen, r) checks = Ok (seen', r') →
  total_checks r' = total_checks r + length checks
  ∧ missing r' = missing r + length (filter (is_missing KC) checks)
  ∧ partial r' = partial r + length (filter (is_partial KC) checks)
  ∧ implemented r' = implemented r + length (filter (is_other KC) checks)
  ∧ missing_checks r' = missing_checks r ++ filter (is_missing KC) checks
  ∧ partial_checks r' = partial_checks r ++ filter (is_partial KC) checks.
Proof.
  revert seen r. induction checks as [|c checks IH]; intros seen r.
  - intros [= <- <-]. rewrite ?filter_nil, ?app_nil_r. simpl.
    repeat split; first [lia|done].
  - rewrite audit_loop_cons.
    destruct (audit_check KC (seen, r) c) as [[seen1 r1]|] eqn:Hc; [|done].
    intros Hloop. apply IH in Hloop as (-> & -> & -> & -> & -> & ->).
    apply audit_check_spec in Hc as (-> & -> & -> & -> & -> & ->).
    rewrite !(filter_cons _ c), !filter_nil.
    repeat case_decide; simpl; rewrite <-?app_assoc; simpl; repeat split;
      first [lia|done].
Qed.

Lemma audit_check_total KC st c :
  with_status KC → ∃ st', audit_check KC st c = Ok st'.
Proof.
  intros Hwf. destruct st as [seen r]. unfold audit_check.
  destruct (bool_decide _);
    (destruct (od_get (pattern_id c) KC) as [known|] eqn:E; simpl; [|eauto];
     apply od_get_elem in E; unfold with_status in Hwf; rewrite Forall_forall in Hwf;
     destruct (Hwf _ E) as [st Hst]; simpl in Hst; unfold getitem; rewrite Hst; simpl;
     destruct (String.eqb st "partial"); eauto).
Qed.

Lemma audit_loop_total KC st checks :
  with_status KC → ∃ st', audit_loop KC st checks = Ok st'.
Proof.
  intros Hwf. revert st. induction checks as [|c checks IH]; intros st.
  - by exists st.
  - rewrite audit_loop_cons.
    destruct (audit_check_total KC st c Hwf) as [st1 ->]. apply IH.
Qed.

(** C9.  When every registry entry has a status, [audit] returns; and in
    what it returns a check counts as partial exactly when its pattern is
    registered with status [partial], as missing exactly when its pattern is
    absent from the registry, and as implemented for every other registered
    status; a check registered as [wontfix] is counted as implemented. *)
Theorem audit_counts (KC : odict sdict) (checks : list SchematronCheck) :
  (with_status KC → ∃ r, audit KC checks = Ok r)
  ∧ (∀ r, audit KC checks = Ok r →
       total_checks r = length checks
       ∧ partial r = length (filter (is_partial KC) checks)
       ∧ partial_checks r = filter (is_partial KC) checks
       ∧ implemented r = length (filter (is_other KC) checks)
       ∧ missing r = length (filter (is_missing KC) checks)
       ∧ missing_checks r = filter (is_missing KC) checks)
  ∧ (∀ c, registry_status KC (pattern_id c) = Some "wontfix" →
       ∃ r, audit KC [c] = Ok r ∧ implemented r = 1 ∧ partial r = 0 ∧ missing r = 0).
Proof.
  split; [|split].
  - intros Hwf. unfold audit.
    destruct (audit_loop_total KC (∅, mkAuditResult 0 0 0 0 0 [] []) checks Hwf)
      as [st' ->]. simpl. eauto.
  - intros r. unfold audit.
    destruct (audit_loop KC _ checks) as [[seen' r']|] eqn:E; simpl; [|done].
    intros [= <-]. apply audit_loop_spec in E. simpl in E.
    destruct E as (-> & -> & -> & -> & -> & ->). done.
  - intros c Hc. unfold registry_status in Hc.
    destruct (od_get (pattern_id c) KC) as [known|] eqn:E; simpl in Hc; [|done].
    unfold audit. simpl. unfold audit_check. rewrite E. simpl.
    unfold getitem. rewrite Hc. simpl. eauto.
Qed.

Lemma audit_counts_witness :
  ∃ r, audit SchematronTable.KNOWN_CHECKS Samples.small_checks = Ok r.
Proof.
  refine (proj1 (audit_counts SchematronTable.KNOWN_CHECKS Samples.small_checks) _).
  compute_done.
Defined.

Example audit_small :
  (fun r => (implemented r, partial r, missing r))
    <$> (match audit SchematronTable.KNOWN_CHECKS Samples.small_checks with
         | Ok r => Some r | Raise _ => None end)
  = Some (2, 1, 1).
Proof. by vm_compute. Qed.

(** The exit status of the Schematron audit follows the missing count. *)
Lemma schematron_exit_nonzero KC checks r :
  audit KC checks = Ok r → 0 < missing r → exit_status KC checks = 2.
Proof.
  intros Hr Hpos. unfold exit_status. rewrite Hr.
  destruct (0 <? missing r) eqn:E; [done|]. apply Nat.ltb_ge in E. lia.
Qed.
End SchematronAuditProofs.

(** ** The RelaxNG parser *)

Module RelaxngParseProofs.
Import Py RelaxngAudit Spec PyFacts.

Lemma scan_element_elements f st m :
  st_elements (scan_element f st m) = add_definition (st_elements st) (f, m).
Proof. destruct m as [[p e] g3]. done. Qed.

Lemma foldl_scan_element f ms st :
  st_elements (foldl (scan_element f) st ms)
  = foldl add_definition (st_elements st) ((fun m => (f, m)) <$> ms).
Proof.
  revert st. induction ms as [|m ms IH]; intros st; simpl; [done|].
  by rewrite IH, scan_element_elements.
Qed.

Lemma foldl_scan_inner ms st :
  st_elements (foldl scan_inner st ms) = st_elements st.
Proof.
  revert st. induction ms as [|[p g] ms IH]; intros st; simpl; [done|].
  by rewrite IH.
Qed.

Lemma scan_files_elements_from file_list st :
  st_elements (foldl scan_file st file_list)
  = foldl add_definition (st_elements st) (element_definitions file_list).
Proof.
  revert st. induction file_list as [|f fl IH]; intros st; [done|].
  simpl foldl. rewrite IH. unfold element_definitions. simpl.
  rewrite foldl_app. f_equal. unfold scan_file.
  destruct (rnc_text f) as [ms|]; simpl; [|done].
  by rewrite foldl_scan_inner, foldl_scan_element.
Qed.

Lemma foldl_add_definition ds els tag :
  od_get tag (foldl add_definition els ds)
  = match od_get tag els with
    | Some e => Some e
    | None => (fun d => element_of_match d.1 tag d.2.2)
                <$> List.find (fun d => String.eqb d.2.1.2 tag) ds
    end.
Proof.
  revert els. induction ds as [|[f [[p e] g3]] ds IH]; intros els; simpl.
  - by destruct (od_get tag els).
  - rewrite IH. unfold od_mem.
    destruct (od_get e els) as [x|] eqn:He.
    + destruct (od_get tag els) eqn:Ht; [done|].
      destruct (String.eqb_spec e tag) as [->|_]; [congruence|done].
    + rewrite od_get_snoc. destruct (od_get tag els) eqn:Ht; [done|].
      rewrite String.eqb_sym. by destruct (String.eqb_spec e tag) as [->|_].
Qed.

Lemma categorize_origin p2e cat pnames els tag :
  option_Forall2 same_origin (od_get tag els) (od_get tag (categorize p2e cat pnames els)).
Proof.
  unfold categorize. revert els.
  induction pnames as [|pn pnames IH]; intros els; simpl.
  - destruct (od_get tag els); constructor. done.
  - set (els1 := match p2e !! pn with Some _ => _ | None => _ end).
    assert (H1 : option_Forall2 same_origin (od_get tag els) (od_get tag els1)).
    { unfold els1. destruct (p2e !! pn) as [en|].
      - destruct (truthy en && od_mem en els).
        + rewrite od_get_alter. destruct (od_get tag els); simpl; constructor.
          by destruct (String.eqb tag en).
        + destruct (od_get tag els); constructor. done.
      - destruct (od_get tag els); constructor. done. }
    specialize (IH els1).
    destruct H1 as [e e1 [Hn Hs]|]; inversion IH as [? e2 [Hn2 Hs2]|]; subst;
      constructor. split; congruence.
Qed.

Lemma same_origin_trans e1 e2 e3 :
  same_origin e1 e2 → same_origin e2 e3 → same_origin e1 e3.
Proof. intros [? ?] [? ?]. split; congruence. Qed.

Lemma option_origin_trans (o1 o2 o3 : option ElementDef) :
  option_Forall2 same_origin o1 o2 → option_Forall2 same_origin o2 o3 →
  option_Forall2 same_origin o1 o3.
Proof.
  intros H1 H2. destruct H1; inversion H2; subst; constructor.
  by eapply same_origin_trans.
Qed.

Lemma resolve_origin raw tag (o : option ElementDef) :
  option_Forall2 same_origin o (resolve_content_model raw tag <$> o).
Proof.
  destruct o as [e|]; simpl; constructor.
  unfold resolve_content_model. destruct (List.find _ _); [|done].
  by destruct (if contains _ _ && _ then _ else _).
Qed.

(** The element map [parse_rnc_files] returns against the map the scan
    loop built. *)
Lemma parse_rnc_files_origin file_list tag :
  option_Forall2 same_origin
    (od_get tag (st_elements (scan_files file_list)))
    (od_get tag (parse_rnc_files file_list).1.1).
Proof.
  unfold parse_rnc_files. cbv zeta. cbn [fst].
  set (st := scan_files file_list).
  set (p2e := base_mapping _ _ _).
  rewrite (od_get_fmap (resolve_content_model (st_raw_patterns st))).
  eapply option_origin_trans; [apply categorize_origin|].
  eapply option_origin_trans; [apply categorize_origin|].
  eapply option_origin_trans; [apply categorize_origin|].
  apply resolve_origin.
Qed.



Example first_definition_sample :
  (fun e => (source_file e, content_model e))
    <$> od_get "p" (parse_rnc_files [Samples.block_rnc; Samples.extra_rnc]).1.1
  = Some ("mod/html5/block.rnc", "phrasing").
Proof. by vm_compute. Qed.
End RelaxngParseProofs.

(** ** The RelaxNG gap analysis *)

Module RelaxngGapProofs.
Import Py RelaxngAudit Spec PyFacts.

(** *** Loops that collect gap items *)

Lemma for_each_cons {A} (body : A → result (list GapItem)) x xs :
  for_each body (x :: xs)
  = match body x with
    | Ok g => match for_each body xs with
              | Ok gs => Ok (g ++ gs)
              | Raise e => Raise e
              end
    | Raise e => Raise e
    end.
Proof. reflexivity. Qed.

Lemma for_each_Forall {A} (body : A → result (list GapItem)) (P : GapItem → Prop) l out :
  (∀ x g, x ∈ l → body x = Ok g → Forall P g) →
  for_each body l = Ok out → Forall P out.
Proof.
  revert out. induction l as [|x xs IH]; intros out Hbody.
  - intros [= <-]. constructor.
  - rewrite for_each_cons.
    destruct (body x) as [g|] eqn:Hx; [|done].
    destruct (for_each body xs) as [gs|] eqn:Hxs; [|done].
    intros [= <-]. apply Forall_app. split.
    + apply (Hbody x); [left|done].
    + apply IH; [|done]. intros y gy Hy. apply Hbody. by right.
Qed.

Lemma for_each_total {A} (body : A → result (list GapItem)) l :
  (∀ x, x ∈ l → ∃ g, body x = Ok g) → ∃ out, for_each body l = Ok out.
Proof.
  induction l as [|x xs IH]; intros Hbody; [by eexists|].
  rewrite for_each_cons.
  destruct (Hbody x) as [g ->]; [left|].
  destruct IH as [gs ->]; [|by eexists]. intros y Hy. apply Hbody. by right.
Qed.

Lemma not_truthy_empty (d : sdict) : dict_truthy d = false → d = ∅.
Proof.
  unfold dict_truthy. intros H. apply bool_decide_eq_false in H.
  by destruct (decide (d = ∅)).
Qed.

Lemma general_implemented_spec KC k :
  get_status_is_implemented KC k = true ↔ registry_status KC k = Some "implemented".
Proof.
  unfold get_status_is_implemented, registry_status. rewrite bool_decide_eq_true.
  destruct (od_get k KC); simpl; [done|]. by rewrite lookup_empty.
Qed.

(** One iteration of the loop over the phrasing-only parents. *)
Lemma phrasing_gap_spec KC elem out :
  phrasing_gap KC (get_status_is_implemented KC "block-in-phrasing") elem = Ok out →
  (covered KC elem → out = [])
  ∧ (¬ covered KC elem →
     ∃ st go, out = [mkGapItem "content-model" (phrasing_description elem)
                       (if bool_decide (elem ∈ high_traffic) then "high" else "medium")
                       (if bool_decide (elem ∈ ["p"; "pre"]) then "mod/html5/block.rnc"
                        else "mod/html5/phrase.rnc")
                       [elem] st go ""]).
Proof.
  unfold phrasing_gap, covered.
  rewrite <-(general_implemented_spec KC "block-in-phrasing").
  unfold registry_status.
  destruct (od_get (elem +:+ "-phrasing-only") KC) as [d|]; simpl.
  - destruct (dict_truthy d) eqn:Ht.
    + unfold getitem. destruct (d !! "status") as [st|]; simpl; [|done].
      destruct (String.eqb_spec st "implemented") as [->|Hne]; simpl.
      * intros [= <-]. split; [done|]. intros Hno. exfalso. apply Hno. by left.
      * destruct (get_status_is_implemented KC "block-in-phrasing"); simpl.
        -- intros [= <-]. split; [done|]. intros Hno. exfalso. apply Hno. by right.
        -- intros [= <-]. split; [|eauto]. intros [[= ?]|?]; done.
    + apply not_truthy_empty in Ht as ->. rewrite lookup_empty. simpl.
      destruct (get_status_is_implemented KC "block-in-phrasing"); simpl.
      * intros [= <-]. split; [done|]. intros Hno. exfalso. apply Hno. by right.
      * intros [= <-]. split; [|eauto]. intros [?|?]; done.
  - destruct (get_status_is_implemented KC "block-in-phrasing"); simpl.
    + intros [= <-]. split; [done|]. intros Hno. exfalso. apply Hno. by right.
    + intros [= <-]. split; [|eauto]. intros [?|?]; done.
Qed.

Lemma phrasing_gap_descriptions KC gen elem out :
  phrasing_gap KC gen elem = Ok out →
  Forall (fun g => description g = phrasing_description elem) out.
Proof.
  unfold phrasing_gap, getitem.
  destruct (od_get _ KC) as [d|];
    [destruct (dict_truthy d); [destruct (d !! "status") as [st|]|]|];
    simpl; try done;
    try (destruct (String.eqb st "implemented"); simpl);
    try (destruct gen; simpl);
    intros [= <-]; by repeat constructor.
Qed.

(** The loop over a list of parents without repeated descriptions. *)
Lemma phrasing_loop KC (l : list string) out elem :
  for_each (phrasing_gap KC (get_status_is_implemented KC "block-in-phrasing")) l = Ok out →
  NoDup (phrasing_description <$> l) → elem ∈ l →
  ∃ g, phrasing_gap KC (get_status_is_implemented KC "block-in-phrasing") elem = Ok g
       ∧ filter (fun x => description x = phrasing_description elem) out = g.
Proof.
  revert out. induction l as [|x xs IH]; intros out Hout Hnd Hin.
  - by apply elem_of_nil in Hin.
  - rewrite for_each_cons in Hout.
    destruct (phrasing_gap KC _ x) as [g|] eqn:Hx; [|done].
    destruct (for_each _ xs) as [gs|] eqn:Hxs; [|done].
    injection Hout as <-. rewrite fmap_cons in Hnd.
    apply NoDup_cons in Hnd as [Hx_new Hnd]. rewrite filter_app.
    assert (Hgs : Forall (fun y => description y ∈ phrasing_description <$> xs) gs).
    { apply (for_each_Forall
               (phrasing_gap KC (get_status_is_implemented KC "block-in-phrasing"))
               _ xs gs); [|done].
      intros y gy Hy Hgy.
      eapply Forall_impl; [exact (phrasing_gap_descriptions KC _ y gy Hgy)|].
      simpl. intros z ->. apply list_elem_of_fmap. by exists y. }
    pose proof (phrasing_gap_descriptions KC _ x g Hx) as Hg.
    apply elem_of_cons in Hin as [->|Hin].
    + exists g. split; [done|].
      rewrite (filter_all _ g Hg), (filter_none _ gs); [by rewrite app_nil_r|].
      eapply Forall_impl; [exact Hgs|]. simpl. intros z Hz Heq. by rewrite Heq in Hz.
    + destruct (IH gs eq_refl Hnd Hin) as (g' & Hg' & Hfilter).
      exists g'. split; [done|].
      rewrite (filter_none _ g); [done|].
      eapply Forall_impl; [exact Hg|]. simpl. intros z -> Heq.
      apply Hx_new. rewrite Heq. apply list_elem_of_fmap. by exists elem.
Qed.

(** *** The other steps of [analyze_gaps] *)

Lemma other_fixed d :
  d ∈ [void_description; interactive_description; description input_gap;
       description picture_gap; description figure_gap] →
  d ∈ other_descriptions.
Proof. intros H. unfold other_descriptions. apply elem_of_app. by left. Qed.

Lemma void_gaps_other KC g : void_gaps KC = Ok g → Forall other g.
Proof.
  unfold void_gaps. destruct (not_implemented _) as [[]|]; [| |done];
    intros [= <-]; [|constructor].
  constructor; [|constructor]. apply other_fixed. simpl. left.
Qed.

Lemma interactive_gaps_other KC g : interactive_gaps KC = Ok g → Forall other g.
Proof.
  unfold interactive_gaps. destruct (not_implemented _) as [[]|]; [| |done];
    intros [= <-]; [|constructor].
  constructor; [|constructor]. apply other_fixed. simpl. right. left.
Qed.

Lemma single_gap_other KC key item g :
  description item ∈ [description input_gap; description picture_gap;
                      description figure_gap] →
  single_gap KC key item = Ok g → Forall other g.
Proof.
  intros Hitem. unfold single_gap. destruct (not_implemented _) as [[]|]; [| |done];
    intros [= <-]; [|constructor].
  constructor; [|constructor]. apply other_fixed. by do 2 right.
Qed.

Lemma restricted_gaps_other KC g : restricted_gaps KC = Ok g → Forall other g.
Proof.
  unfold restricted_gaps. apply for_each_Forall. intros [parent allowed] out Hin.
  rewrite sorted_perm in Hin. unfold restricted_gap.
  destruct (_ && _); [intros [= <-]; constructor|].
  destruct (some_implemented_mentions parent KC) as [[]|]; [| |done];
    intros [= <-]; [constructor|].
  constructor; [|constructor].
  unfold other, other_descriptions. apply elem_of_app. right. apply elem_of_app. left.
  apply list_elem_of_fmap. by exists (parent, allowed).
Qed.

Lemma transparent_gaps_other KC g : transparent_gaps KC = Ok g → Forall other g.
Proof.
  unfold transparent_gaps. apply for_each_Forall. intros elem out Hin.
  unfold transparent_gap. destruct (get_status_is_implemented _ _);
    [intros [= <-]; constructor|].
  destruct (not_implemented _) as [[]|]; [| |done];
    intros [= <-]; [|constructor].
  constructor; [|constructor].
  unfold other, other_descriptions. apply elem_of_app. right. apply elem_of_app. right.
  apply list_elem_of_fmap. by exists elem.
Qed.

(** The result of [analyze_gaps] is the phrasing-only items followed by
    items of the other steps. *)
Lemma analyze_gaps_split KC els crs gaps :
  analyze_gaps KC els crs = Ok gaps →
  ∃ g1 rest, phrasing_gaps KC = Ok g1 ∧ gaps = g1 ++ rest ∧ Forall other rest.
Proof.
  unfold analyze_gaps, mbind, result_bind, bind.
  destruct (phrasing_gaps KC) as [g1|]; [|done].
  destruct (void_gaps KC) as [g2|] eqn:H2; [|done].
  destruct (restricted_gaps KC) as [g3|] eqn:H3; [|done].
  destruct (transparent_gaps KC) as [g4|] eqn:H4; [|done].
  destruct (interactive_gaps KC) as [g5|] eqn:H5; [|done].
  destruct (single_gap KC "input-type" input_gap) as [g6|] eqn:H6; [|done].
  destruct (single_gap KC "picture-img-required" picture_gap) as [g7|] eqn:H7; [|done].
  destruct (single_gap KC "figure-figcaption-position" figure_gap) as [g8|] eqn:H8;
    [|done].
  intros [= <-]. exists g1, (g2 ++ g3 ++ g4 ++ g5 ++ g6 ++ g7 ++ g8).
  split; [done|]. split; [done|].
  repeat (apply Forall_app; split).
  - by apply (void_gaps_other KC).
  - by apply (restricted_gaps_other KC).
  - by apply (transparent_gaps_other KC).
  - by apply (interactive_gaps_other KC).
  - apply (single_gap_other KC _ _ _ ltac:(left) H6).
  - apply (single_gap_other KC _ _ _ ltac:(right; left) H7).
  - apply (single_gap_other KC _ _ _ ltac:(right; right; left) H8).
Qed.

Lemma phrasing_parents_listed elem :
  elem ∈ PHRASING_CONTENT_PARENTS ↔ elem ∈ sorted id (elements PHRASING_CONTENT_PARENTS).
Proof. by rewrite sorted_perm, elem_of_elements. Qed.

Lemma phrasing_descriptions_distinct :
  NoDup (phrasing_description <$> sorted id (elements PHRASING_CONTENT_PARENTS)).
Proof. compute_done. Qed.

Lemma phrasing_descriptions_apart :
  Forall (fun elem => phrasing_description elem ∉ other_descriptions)
         (sorted id (elements PHRASING_CONTENT_PARENTS)).
Proof. compute_done. Qed.

(** *** Termination without an exception *)

Lemma entry_has_status KC k d :
  with_status KC → od_get k KC = Some d → is_Some (d !! "status").
Proof.
  intros Hwf Hget. apply od_get_elem in Hget. unfold with_status in Hwf.
  rewrite Forall_forall in Hwf. apply (Hwf _ Hget).
Qed.

Lemma not_implemented_total known :
  (∀ d, known = Some d → is_Some (d !! "status")) → ∃ b, not_implemented known = Ok b.
Proof.
  intros H. unfold not_implemented. destruct known as [d|]; [|by eexists].
  destruct (dict_truthy d); [|by eexists].
  destruct (H d eq_refl) as [st Hst]. unfold getitem. rewrite Hst. by eexists.
Qed.

Lemma phrasing_gap_total KC gen elem :
  with_status KC → ∃ g, phrasing_gap KC gen elem = Ok g.
Proof.
  intros Hwf. unfold phrasing_gap.
  destruct (od_get _ KC) as [d|] eqn:E.
  - destruct (entry_has_status KC _ d Hwf E) as [st Hst].
    unfold getitem. rewrite Hst.
    destruct (dict_truthy d); simpl;
      repeat match goal with |- context [if ?b then _ else _] => destruct b; simpl end;
      by eexists.
  - simpl. destruct gen; by eexists.
Qed.

Lemma some_implemented_mentions_total parent items :
  Forall (fun e => is_Some (e.2 !! "status")) items →
  ∃ b, some_implemented_mentions parent items = Ok b.
Proof.
  induction 1 as [|[k v] items [st Hst] _ IH]; [by eexists|]. simpl in *.
  destruct (contains parent k); [|done].
  unfold getitem. rewrite Hst. simpl. destruct (String.eqb st "implemented"); [|done].
  by eexists.
Qed.

Lemma single_gap_total KC key item :
  with_status KC → ∃ g, single_gap KC key item = Ok g.
Proof.
  intros Hwf. unfold single_gap.
  destruct (not_implemented_total (od_get key KC)) as [b ->]; [|by eexists].
  intros d. by apply entry_has_status.
Qed.

Lemma analyze_gaps_total KC els crs :
  with_status KC → ∃ gaps, analyze_gaps KC els crs = Ok gaps.
Proof.
  intros Hwf. unfold analyze_gaps, mbind, result_bind, bind.
  assert (H1 : ∃ g, phrasing_gaps KC = Ok g).
  { apply for_each_total. intros x _. by apply phrasing_gap_total. }
  assert (H2 : ∃ g, void_gaps KC = Ok g).
  { unfold void_gaps.
    destruct (not_implemented_total (od_get "void-elements-no-children" KC)) as [b ->];
      [|by eexists]. intros d. by apply entry_has_status. }
  assert (H3 : ∃ g, restricted_gaps KC = Ok g).
  { apply for_each_total. intros [parent allowed] _. unfold restricted_gap.
    destruct (_ && _); [by eexists|].
    destruct (some_implemented_mentions_total parent KC Hwf) as [b ->]. by eexists. }
  assert (H4 : ∃ g, transparent_gaps KC = Ok g).
  { apply for_each_total. intros elem _. unfold transparent_gap.
    destruct (get_status_is_implemented _ _); [by eexists|].
    destruct (not_implemented_total
                (snd <$> List.find (fun '(k, _) => contains elem k
                                                   && contains "transparent" k) KC))
      as [b ->]; [|by eexists].
    intros d Hd. destruct (List.find _ KC) as [[k v]|] eqn:E; [|done].
    injection Hd as ->. apply find_some in E as [Hin _].
    apply list_elem_of_In in Hin. unfold with_status in Hwf.
    rewrite Forall_forall in Hwf. apply (Hwf _ Hin). }
  assert (H5 : ∃ g, interactive_gaps KC = Ok g).
  { unfold interactive_gaps.
    destruct (not_implemented_total (od_get "interactive-in-interactive" KC)) as [b ->];
      [|by eexists]. intros d. by apply entry_has_status. }
  destruct H1 as [g1 ->], H2 as [g2 ->], H3 as [g3 ->], H4 as [g4 ->], H5 as [g5 ->].
  destruct (single_gap_total KC "input-type" input_gap Hwf) as [g6 ->].
  destruct (single_gap_total KC "picture-img-required" picture_gap Hwf) as [g7 ->].
  destruct (single_gap_total KC "figure-figcaption-position" figure_gap Hwf) as [g8 ->].
  by eexists.
Qed.


(** The exit status of the RelaxNG audit follows the high-priority gaps. *)
Lemma relaxng_exit_nonzero KC file_list gaps g :
  (let '(els, crs, _) := parse_rnc_files file_list in analyze_gaps KC els crs) = Ok gaps →
  g ∈ gaps → priority g = "high" → exit_status KC file_list = 2.
Proof.
  unfold exit_status. destruct (parse_rnc_files file_list) as [[els crs] raw].
  intros -> Hin Hhigh.
  destruct (filter (fun g0 => priority g0 = "high") gaps) as [|x xs] eqn:E; [|done].
  exfalso. apply (filter_nil_not_elem_of _ _ g E); done.
Qed.

End RelaxngGapProofs.
